(** * OCR quality assessment: client code and quality-metrics engine

    A shallow embedding of the TypeScript client of the OCR quality
    assessment service (upload components, API client, server actions,
    page navigation, metric rendering) and of the text aligner of the
    quality-metrics engine the service specification describes.

    Conventions.
    - A JavaScript string is a [string]; its characters are the bytes of
      the Rocq string, so ASCII text is exact and the case conversions
      below act on ASCII letters.
    - A JavaScript number that the code uses as a counter or an index is
      a [Z] or an [N]; a metric value is a rational [Q].
    - An [async] function runs in the monad [io]: a trace of the effects
      it performed, in order, and the way its promise settled. *)

From Stdlib Require Import String Ascii List Bool Arith ZArith NArith QArith.
From Stdlib Require Import Lia Lqa DecimalString.
Import ListNotations.

Set Warnings "-register-all".

Local Open Scope string_scope.
Local Open Scope list_scope.

(** ** JavaScript values, errors and promises *)

Module JS.

(** The value a body parsed by [response.json()] can be. *)
Inductive json : Type :=
| JNull
| JBool (b : bool)
| JNum (q : Q)
| JStr (s : string)
| JArr (items : list json)
| JObj (entries : list (string * json)).

Inductive js_error : Type :=
| Error (message : string)
| TypeError (message : string)
| SyntaxError (message : string).

Definition message_of (e : js_error) : string :=
  match e with
  | Error m | TypeError m | SyntaxError m => m
  end.

(** How a promise settles. *)
Inductive promise (A : Type) : Type :=
| Resolved (a : A)
| Rejected (e : js_error).
Arguments Resolved {A} a.
Arguments Rejected {A} e.

(** [o[k]] on a parsed object: the first entry with that key. *)
Fixpoint lookup {A : Type} (k : string) (entries : list (string * A))
  : option A :=
  match entries with
  | [] => None
  | (k', v) :: rest => if String.eqb k k' then Some v else lookup k rest
  end.

(** [Object.keys]. *)
Definition Object_keys (v : json) : list string :=
  match v with
  | JObj entries => map fst entries
  | _ => []
  end.

(** [v.key] for a value [v] that came out of [JSON.parse]; [None] is
    [undefined].  Reading a property of [null] throws. *)
Definition get_property (v : json) (key : string) : promise (option json) :=
  match v with
  | JNull =>
      Rejected (TypeError
        ("Cannot read properties of null (reading '" ++ key ++ "')"))
  | JObj entries => Resolved (lookup key entries)
  | _ => Resolved None
  end.

(** Truthiness of a value that may be [undefined]. *)
Definition truthy (v : option json) : bool :=
  match v with
  | None => false
  | Some JNull => false
  | Some (JBool b) => b
  | Some (JNum q) => negb (Qeq_bool q 0)
  | Some (JStr s) => negb (String.eqb s "")
  | Some (JArr _) => true
  | Some (JObj _) => true
  end.

(** Decimal rendering of a non-negative integer, as a template
    literal prints it. *)
Definition decimal (n : N) : string :=
  NilZero.string_of_uint (N.to_uint n).

Section ToString.

(** [Number::toString] on an arbitrary JSON number is left to the
    language; every other case of the conversion is written out. *)
Variable Number_toString : Q -> string.

Fixpoint ToString (v : json) : string :=
  match v with
  | JNull => "null"
  | JBool true => "true"
  | JBool false => "false"
  | JNum q => Number_toString q
  | JStr s => s
  | JArr items =>
      String.concat ","
        (map (fun x => match x with
                       | JNull => ""
                       | _ => ToString x
                       end) items)
  | JObj _ => "[object Object]"
  end.

(** [new Error(v)]. *)
Definition new_Error (v : json) : js_error := Error (ToString v).

End ToString.

(** *** String methods *)

Definition is_upper (c : ascii) : bool :=
  (65 <=? nat_of_ascii c)%nat && (nat_of_ascii c <=? 90)%nat.

Definition lower_char (c : ascii) : ascii :=
  if is_upper c then ascii_of_nat (nat_of_ascii c + 32) else c.

Definition upper_char (c : ascii) : ascii :=
  if (97 <=? nat_of_ascii c)%nat && (nat_of_ascii c <=? 122)%nat
  then ascii_of_nat (nat_of_ascii c - 32) else c.

Fixpoint map_string (f : ascii -> ascii) (s : string) : string :=
  match s with
  | EmptyString => EmptyString
  | String c rest => String (f c) (map_string f rest)
  end.

(** [s.toLowerCase()] on ASCII text: the letters A to Z are lowered,
    every other character is kept.  Outside ASCII the method of the
    language follows the Unicode case mappings, which this function
    does not. *)
Definition toLowerCase (s : string) : string := map_string lower_char s.

(** [s.endsWith(suffix)]. *)
Definition endsWith (s suffix : string) : bool :=
  let n := String.length s in
  let m := String.length suffix in
  (m <=? n)%nat && String.eqb (substring (n - m) m s) suffix.

(** [s.split(sep)] for a one-character separator: never empty. *)
Fixpoint split_from (sep : ascii) (cur : string) (s : string)
  : list string :=
  match s with
  | EmptyString => [cur]
  | String c rest =>
      if Ascii.eqb c sep then cur :: split_from sep "" rest
      else split_from sep (cur ++ String c "") rest
  end.

Definition split (sep : ascii) (s : string) : list string :=
  split_from sep "" s.

(** [a.pop()]: the last element, [undefined] on the empty array. *)
Definition pop {A : Type} (a : list A) : option A :=
  match rev a with
  | [] => None
  | x :: _ => Some x
  end.

(** [a.includes(x)] on an array of strings. *)
Definition includes (a : list string) (x : string) : bool :=
  existsb (String.eqb x) a.

(** [a.join(sep)]. *)
Definition join (sep : string) (a : list string) : string :=
  String.concat sep a.

End JS.
Export JS.

(** ** Effects of the client code *)

Module UI.

(** The argument of [toast]. *)
Record ToastOptions : Type := mkToast {
  variant : option string;
  title : string;
  description : string
}.

Record File : Type := mkFile {
  name : string;
  type : string;
  size : N
}.

(** A form field appended to a [FormData]; [FJson j] is the text
    [JSON.stringify] produces for [j]. *)
Inductive FormValue : Type :=
| FFile (f : File)
| FString (s : string)
| FJson (j : json).

Record RequestInit : Type := mkInit {
  method : string;
  body : list (string * FormValue)
}.

(** What the code does to the world, in the order it does it. *)
Inductive event : Type :=
| ToastEv (t : ToastOptions)
| ConsoleError (label : string) (e : js_error)
| FetchEv (url : string) (init : RequestInit)
| OnFileUpload (f : File)
| OnOCRComplete (r : json)
| OnError (msg : string)
| SetIsProcessing (b : bool)
| SetProgress (p : N)
| SetResult (r : option json)
| SetInterval (ms : N)
| ClearInterval
| SetTimeout (ms : N).

(** An asynchronous computation: its trace and how it settled. *)
Definition io (A : Type) : Type := list event * promise A.

Definition ret {A : Type} (a : A) : io A := ([], Resolved a).

Definition throw {A : Type} (e : js_error) : io A := ([], Rejected e).

Definition emit (ev : event) : io unit := ([ev], Resolved tt).

Definition lift {A : Type} (p : promise A) : io A := ([], p).

Definition bind {A B : Type} (m : io A) (k : A -> io B) : io B :=
  match m with
  | (t, Resolved a) => let (t', r) := k a in (t ++ t', r)
  | (t, Rejected e) => (t, Rejected e)
  end.

(** [try { m } catch (e) { h e }]. *)
Definition try_catch {A : Type} (m : io A) (h : js_error -> io A) : io A :=
  match m with
  | (t, Resolved a) => (t, Resolved a)
  | (t, Rejected e) => let (t', r) := h e in (t ++ t', r)
  end.

(** [try { m } finally { f }] where [f] completes normally. *)
Definition finally {A : Type} (m : io A) (f : list event) : io A :=
  let (t, r) := m in (t ++ f, r).

Definition trace {A : Type} (m : io A) : list event := fst m.
Definition outcome {A : Type} (m : io A) : promise A := snd m.

Definition is_fetch (ev : event) : bool :=
  match ev with FetchEv _ _ => true | _ => false end.

Definition is_upload (ev : event) : bool :=
  match ev with OnFileUpload _ => true | _ => false end.

Definition is_toast (ev : event) : bool :=
  match ev with ToastEv _ => true | _ => false end.

(** How many times the trace reaches the processing call. *)
Definition count (p : event -> bool) (t : list event) : nat :=
  List.length (filter p t).

End UI.
Export UI.

Declare Scope io_scope.
Delimit Scope io_scope with io.
Notation "x <- m ;; k" := (UI.bind m (fun x => k))
  (at level 61, m at next level, right associativity) : io_scope.
Notation "m ;;; k" := (UI.bind m (fun _ => k))
  (at level 61, right associativity) : io_scope.

(** ** The API client (lib/ocr-api.ts) *)

Module ColumnData.
Inductive Side : Type := left | right.
Record t : Type := mk {
  text : string;
  side : Side;
  language : string;
  items_count : Z;
  confidence_avg : Q
}.
Definition side_name (s : Side) : string :=
  match s with left => "left" | right => "right" end.
Definition to_json (c : t) : json :=
  JObj [("text", JStr (text c));
        ("side", JStr (side_name (side c)));
        ("language", JStr (language c));
        ("items_count", JNum (inject_Z (items_count c)));
        ("confidence_avg", JNum (confidence_avg c))].
End ColumnData.

Module PageData.
Record t : Type := mk {
  page_number : Z;
  text : string;
  columns : list ColumnData.t;
  columns_count : Z;
  has_multiple_columns : bool
}.
Definition to_json (p : t) : json :=
  JObj [("page_number", JNum (inject_Z (page_number p)));
        ("text", JStr (text p));
        ("columns", JArr (map ColumnData.to_json (columns p)));
        ("columns_count", JNum (inject_Z (columns_count p)));
        ("has_multiple_columns", JBool (has_multiple_columns p))].
End PageData.

Module OCRResponse.
(** [interface OCRResponse]: six fields, then five marked [?]. *)
Record t : Type := mk {
  extracted_text : string;
  structured_data : list (string * json);
  metrics : list (string * Q);
  json_validity : bool;
  schema_consistency : bool;
  processing_time : Q;
  pages : option (list PageData.t);
  total_pages : option Z;
  has_multiple_columns : option bool;
  columns : option (list ColumnData.t);
  columns_count : option Z
}.

(** An optional member is a key of the object only when it is set. *)
Definition optional {A : Type} (key : string) (enc : A -> json)
  (v : option A) : list (string * json) :=
  match v with
  | Some x => [(key, enc x)]
  | None => []
  end.

(** The JSON object a value of the interface is. *)
Definition to_json (r : t) : json :=
  JObj ([("extracted_text", JStr (extracted_text r));
         ("structured_data", JObj (structured_data r));
         ("metrics", JObj (map (fun kv => (fst kv, JNum (snd kv))) (metrics r)));
         ("json_validity", JBool (json_validity r));
         ("schema_consistency", JBool (schema_consistency r));
         ("processing_time", JNum (processing_time r))]
        ++ optional "pages" (fun l => JArr (map PageData.to_json l)) (pages r)
        ++ optional "total_pages" (fun z => JNum (inject_Z z)) (total_pages r)
        ++ optional "has_multiple_columns" JBool (has_multiple_columns r)
        ++ optional "columns" (fun l => JArr (map ColumnData.to_json l))
             (columns r)
        ++ optional "columns_count" (fun z => JNum (inject_Z z))
             (columns_count r)).
End OCRResponse.

Module Response.
(** What [fetch] resolves to: the status line and the result of
    [response.json()]. *)
Record t : Type := mk {
  status : N;
  json : promise JS.json
}.
(** [response.ok]: the status is in the range 200-299. *)
Definition ok (r : t) : bool :=
  (200 <=? status r)%N && (status r <=? 299)%N.
End Response.

Module OcrApi.

Record OCRRequest : Type := mkRequest {
  file : File;
  ground_truth : option string;
  expected_fields : option (list string);
  schema : option (list (string * json))
}.

Section Client.

(** The environment of the module: the configured base URL, the
    network, and the language's number formatting. *)
Variable NEXT_PUBLIC_API_BASE_URL : option string.
Variable fetch : string -> RequestInit -> promise Response.t.
Variable Number_toString : Q -> string.

Definition API_BASE_URL : string :=
  match NEXT_PUBLIC_API_BASE_URL with
  | Some s => if String.eqb s "" then "http://127.0.0.1:8000" else s
  | None => "http://127.0.0.1:8000"
  end.

(** The [FormData] the request is sent with: [file] always, the other
    members when they are truthy. *)
Definition formData (request : OCRRequest) : list (string * FormValue) :=
  [("file", FFile (file request))]
  ++ match ground_truth request with
     | Some s => if String.eqb s "" then [] else [("ground_truth", FString s)]
     | None => []
     end
  ++ match expected_fields request with
     | Some l => [("expected_fields", FJson (JArr (map JStr l)))]
     | None => []
     end
  ++ match schema request with
     | Some o => [("schema", FJson (JObj o))]
     | None => []
     end.

Definition http_error (response : Response.t) : string :=
  "HTTP error! status: " ++ decimal (Response.status response).

(** [if (!response.ok) { ... throw new Error(...) }]. *)
Definition throw_http_error (response : Response.t) : io json :=
  (errorData <- try_catch (lift (Response.json response))
                  (fun _ => ret (JObj [])) ;;
   detail <- lift (get_property errorData "detail") ;;
   throw (if truthy detail
          then match detail with
               | Some d => new_Error Number_toString d
               | None => Error (http_error response)
               end
          else Error (http_error response)))%io.

Definition processDocumentOCR (request : OCRRequest) : io json :=
  (let init := mkInit "POST" (formData request) in
   let url := (API_BASE_URL ++ "/ocr/process")%string in
   emit (FetchEv url init) ;;;
   response <- lift (fetch url init) ;;
   if negb (Response.ok response)
   then throw_http_error response
   else lift (Response.json response))%io.

End Client.
End OcrApi.

(** ** The text upload component (components/doc-upload.tsx) *)

Module DocUpload.

(** The test [handleFile] makes on a file that is present. *)
Definition isSupported (file : File) : bool :=
  String.eqb (type file) "text/plain"
  || endsWith (name file) ".txt"
  || String.eqb (type file) "application/pdf"
  || endsWith (name file) ".pdf".

Definition invalidFileType : ToastOptions :=
  mkToast (Some "destructive") "Invalid File Type"
    "Please upload a .txt or .pdf file.".

Definition handleFile (file : option File) : list event :=
  match file with
  | Some f =>
      if isSupported f then [OnFileUpload f] else [ToastEv invalidFileType]
  | None => []
  end.

End DocUpload.

(** ** The OCR upload component (components/ocr-upload.tsx) *)

Module OCRUpload.

Definition supportedFormats : list string :=
  [".jpg"; ".jpeg"; ".png"; ".bmp"; ".tiff"; ".pdf"].

(** ['.' + file.name.split('.').pop()?.toLowerCase()]. *)
Definition fileExtension (file : File) : string :=
  match pop (split "." (name file)) with
  | Some last => "." ++ toLowerCase last
  | None => ".undefined"
  end.

Definition maxSize : N := 10 * 1024 * 1024.

Definition unsupportedFormat : ToastOptions :=
  mkToast (Some "destructive") "Неподдерживаемый формат файла"
    ("Поддерживаемые форматы: " ++ join ", " supportedFormats).

Definition fileTooLarge : ToastOptions :=
  mkToast (Some "destructive") "Файл слишком большой"
    "Максимальный размер файла: 10MB".

(** The optional callbacks of the component: whether each is given. *)
Record OCRUploadProps : Type := mkProps {
  onOCRComplete : bool;
  onError : bool
}.

Section Component.

Variable NEXT_PUBLIC_API_BASE_URL : option string.
Variable fetch : string -> RequestInit -> promise Response.t.
Variable Number_toString : Q -> string.
(** [s.length], the number of UTF-16 code units of a string. *)
Variable String_length : string -> N.
Variable props : OCRUploadProps.

(** [v.length] printed inside a template literal, for the value [v] of
    [ocrResult.extracted_text]. *)
Definition length_text (v : option json) : promise string :=
  match v with
  | None =>
      Rejected (TypeError
        "Cannot read properties of undefined (reading 'length')")
  | Some JNull =>
      Rejected (TypeError "Cannot read properties of null (reading 'length')")
  | Some (JStr s) => Resolved (decimal (String_length s))
  | Some (JArr items) => Resolved (decimal (N.of_nat (List.length items)))
  | Some (JObj entries) =>
      match lookup "length" entries with
      | Some x => Resolved (ToString Number_toString x)
      | None => Resolved "undefined"
      end
  | Some _ => Resolved "undefined"
  end.

Definition when (b : bool) (ev : event) : io unit :=
  if b then emit ev else ret tt.

(** The body of the [try] block.  The callback of the interval timer
    only advances the progress bar and is left out. *)
Definition process (file : File) : io unit :=
  (emit (SetInterval 200) ;;;
   ocrResult <- OcrApi.processDocumentOCR NEXT_PUBLIC_API_BASE_URL fetch
                  Number_toString (OcrApi.mkRequest file None None None) ;;
   emit ClearInterval ;;;
   emit (SetProgress 100) ;;;
   emit (SetResult (Some ocrResult)) ;;;
   when (onOCRComplete props) (OnOCRComplete ocrResult) ;;;
   text <- lift (get_property ocrResult "extracted_text") ;;
   len <- lift (length_text text) ;;
   emit (ToastEv (mkToast None "OCR обработка завершена"
                    ("Извлечено " ++ len ++ " символов"))))%io.

(** The [catch] block. *)
Definition report (error : js_error) : io unit :=
  (emit (ConsoleError "OCR processing error:" error) ;;;
   let errorMessage := message_of error in
   emit (ToastEv (mkToast (Some "destructive") "Ошибка OCR обработки"
                    errorMessage)) ;;;
   when (onError props) (OnError errorMessage))%io.

Definition handleFile (file : option File) : io unit :=
  match file with
  | None => ret tt
  | Some f =>
      if negb (includes supportedFormats (fileExtension f))
      then emit (ToastEv unsupportedFormat)
      else if (maxSize <? size f)%N
      then emit (ToastEv fileTooLarge)
      else
        (emit (SetIsProcessing true) ;;;
         emit (SetProgress 0) ;;;
         emit (SetResult None) ;;;
         finally (try_catch (process f) report)
           [SetIsProcessing false; SetTimeout 1000])%io
  end.

End Component.
End OCRUpload.

(** ** The server actions (app/actions.ts) *)

Module Actions.

Record LLMChatWithDocumentInput : Type := mkInput {
  documentText : string;
  userQuestion : string
}.

Record LLMChatWithDocumentOutput : Type := mkOutput {
  answer : string
}.

Definition fallback : string :=
  "Sorry, I encountered an error while processing your question.".

Section Flow.

(** The LLM flow: it settles with an answer or with an exception. *)
Variable llmChatWithDocument :
  LLMChatWithDocumentInput -> promise LLMChatWithDocumentOutput.

Definition askQuestion (documentText userQuestion : string) : io string :=
  try_catch
    (out <- lift (llmChatWithDocument (mkInput documentText userQuestion)) ;;
     ret (answer out))%io
    (fun error =>
       (emit (ConsoleError "Error in askQuestion:" error) ;;;
        ret fallback)%io).

End Flow.
End Actions.

(** ** Page navigation (components/ocr-columns-display.tsx) *)

Module OCRColumnsDisplay.

Inductive View : Type := full | columns | pages.

(** The two [useState] cells of the component. *)
Record State : Type := mkState {
  currentPage : Z;
  activeView : View
}.

Definition initial : State := mkState 0 full.

Section Component.

Variable result : OCRResponse.t.

(** [result.pages && result.pages.length > 0]. *)
Definition hasPages : bool :=
  match OCRResponse.pages result with
  | Some l => (0 <? List.length l)%nat
  | None => false
  end.

Definition goToPrevPage (st : State) : State :=
  match OCRResponse.pages result with
  | Some _ =>
      if hasPages
      then mkState (Z.max 0 (currentPage st - 1)) (activeView st)
      else st
  | None => st
  end.

Definition goToNextPage (st : State) : State :=
  match OCRResponse.pages result with
  | Some l =>
      if hasPages
      then mkState (Z.min (Z.of_nat (List.length l) - 1) (currentPage st + 1))
             (activeView st)
      else st
  | None => st
  end.

(** The user's actions on the component. *)
Inductive Action : Type :=
| PrevPage
| NextPage
| SetActiveView (v : View).

Definition step (st : State) (a : Action) : State :=
  match a with
  | PrevPage => goToPrevPage st
  | NextPage => goToNextPage st
  | SetActiveView v => mkState (currentPage st) v
  end.

Definition run (actions : list Action) : State :=
  fold_left step actions initial.

(** The index points into the page list. *)
Definition in_range (pages : list PageData.t) (st : State) : Prop :=
  (0 <= currentPage st <= Z.of_nat (List.length pages) - 1)%Z.

(** [pages[currentPage]] in [renderPages]: [None] is [undefined]. *)
Definition currentPageData (pages : list PageData.t) (st : State)
  : option PageData.t :=
  if (currentPage st <? 0)%Z then None
  else nth_error pages (Z.to_nat (currentPage st)).

End Component.
End OCRColumnsDisplay.

(** ** Metric rendering (components/ocr-metrics.tsx) *)

Module OCRMetrics.

Definition is_word (c : ascii) : bool :=
  let n := nat_of_ascii c in
  ((48 <=? n) && (n <=? 57) || (65 <=? n) && (n <=? 90)
   || (97 <=? n) && (n <=? 122) || (n =? 95))%nat.

(** [s.replace(/\b\w/g, l => l.toUpperCase())]; [prev] tells whether
    the preceding character is a word character. *)
Fixpoint capitalize_from (prev : bool) (s : string) : string :=
  match s with
  | EmptyString => EmptyString
  | String c rest =>
      String (if is_word c && negb prev then upper_char c else c)
        (capitalize_from (is_word c) rest)
  end.

(** [key.replace(/_/g, ' ')]. *)
Definition spaced (key : string) : string :=
  map_string (fun c => if Ascii.eqb c "_" then " "%char else c) key.

Record ChartEntry : Type := mkEntry {
  metric : string;
  value : Q;
  rawValue : Q
}.

(** [chartData]: every entry of the metrics map is a number, so the
    [typeof] filter keeps all of them. *)
Definition chartData (result : OCRResponse.t) : list ChartEntry :=
  map (fun kv => mkEntry (capitalize_from false (spaced (fst kv)))
                   (snd kv * 100) (snd kv))
    (OCRResponse.metrics result).

(** [const percentage = value * 100], the value given to [Progress]. *)
Definition percentage (value : Q) : Q := value * 100.

End OCRMetrics.

(** ** The text aligner of the quality-metrics engine (specification
    section 4.3)

    The engine runs in the Python backend (metrics_calculator.py,
    data_extractor.py, pdf_processor.py, main.py), of which the client
    sees only the responses; the definitions of this module follow the
    service specification.  Only the text aligner is modelled: the
    other components depend on thresholds, patterns and a report
    layout that the specification leaves open. *)

Module Engine.

(** Modelled from the spec: the failures of section 7 and of the
    arithmetic (the backend's exceptions are missing).  A division by
    zero and an invariant violation are the only ways to fail. *)
Inductive EngineError : Type :=
| ZeroDivisionError
| InternalError (reason : string).

(** Modelled from the spec: the outcome of a component of the missing
    backend, a value or one of the failures above. *)
Inductive result (A : Type) : Type :=
| Ok (a : A)
| Err (e : EngineError).
Arguments Ok {A} a.
Arguments Err {A} e.

Definition rbind {A B : Type} (m : result A) (k : A -> result B) : result B :=
  match m with
  | Ok a => k a
  | Err e => Err e
  end.

Definition rmap {A B : Type} (f : A -> B) (m : result A) : result B :=
  rbind m (fun a => Ok (f a)).

Definition is_ok {A : Type} (m : result A) : bool :=
  match m with Ok _ => true | Err _ => false end.

(** Modelled from the spec: division as the backend's language has
    it, raising on a zero divisor (the metric code is missing). *)
Definition divide (a b : Q) : result Q :=
  if Qeq_bool b 0 then Err ZeroDivisionError else Ok (a / b).

(** A count as a rational. *)
Definition Qnat (n : nat) : Q := inject_Z (Z.of_nat n).

(** *** 4.3 TextAligner *)

(** Modelled from the spec: the whitespace of section 4.3 (missing
    with the metric code): the space and the control characters from
    tab to carriage return. *)
Definition is_space (c : ascii) : bool :=
  let n := nat_of_ascii c in
  ((n =? 32) || (9 <=? n) && (n <=? 13))%nat.

(** Modelled from the spec: whitespace tokenization of section 4.3
    (the tokenizer of the metric code is missing): maximal runs of
    non-whitespace characters, in order. *)
Fixpoint words_from (cur : list ascii) (s : list ascii)
  : list (list ascii) :=
  match s with
  | [] => match cur with [] => [] | _ => [cur] end
  | c :: rest =>
      if is_space c
      then match cur with
           | [] => words_from [] rest
           | _ => cur :: words_from [] rest
           end
      else words_from (cur ++ [c]) rest
  end.

Definition tokenize (s : list ascii) : list (list ascii) := words_from [] s.

(** Words joined with single spaces. *)
Fixpoint unwords (ws : list (list ascii)) : list ascii :=
  match ws with
  | [] => []
  | [w] => w
  | w :: rest => w ++ " "%char :: unwords rest
  end.

(** Modelled from the spec: normalization of section 4.3 (missing
    with the metric code): case-fold, collapse consecutive whitespace
    to a single space, trim the ends. *)
Definition normalize (s : string) : list ascii :=
  unwords (tokenize (map lower_char (list_ascii_of_string s))).

Section Alignment.

Context {A : Type}.
Variable eqb : A -> A -> bool.

(** Modelled from the spec: the choice among the three edit
    operations of section 4.3 (missing with the metric code): the
    cheapest way to extend an alignment; on equal cost the diagonal,
    then the deletion. *)
Definition best (diag del ins : nat * nat) : nat * nat :=
  if (fst diag <=? fst del)%nat
  then if (fst diag <=? fst ins)%nat then diag else ins
  else if (fst del <=? fst ins)%nat then del else ins.

Definition edit (c : nat * nat) : nat * nat := (S (fst c), snd c).
Definition keep (c : nat * nat) : nat * nat := (fst c, S (snd c)).

(** Modelled from the spec: the minimum edit distance of section 4.3
    (missing with the metric code) as a recurrence, with unit-cost
    insertions, deletions and substitutions, carrying the number of
    matched characters of the alignment it follows. *)
Fixpoint recurrence (xs ys : list A) : nat * nat :=
  match xs with
  | [] => (List.length ys, 0%nat)
  | x :: xs' =>
      (fix recurrence_row (ys : list A) : nat * nat :=
         match ys with
         | [] => (List.length xs, 0%nat)
         | y :: ys' =>
             best (if eqb x y then keep (recurrence xs' ys')
                   else edit (recurrence xs' ys'))
                  (edit (recurrence xs' ys))
                  (edit (recurrence_row ys'))
         end) ys
  end.

(** The suffixes of a text, the text itself first. *)
Fixpoint tails (ys : list A) : list (list A) :=
  match ys with
  | [] => [[]]
  | _ :: ys' => ys :: tails ys'
  end.

(** The row of the table against the empty text: one cell for each
    suffix of [ys], the cell of the whole of [ys] first. *)
Fixpoint first_row (ys : list A) : list (nat * nat) :=
  match ys with
  | [] => [(0%nat, 0%nat)]
  | _ :: ys' => (List.length ys, 0%nat) :: first_row ys'
  end.

Definition top (row : list (nat * nat)) : nat * nat := hd (0%nat, 0%nat) row.

(** The row of [x :: xs'] from the row [prev] of [xs']; [n] is the
    length of [x :: xs']. *)
Fixpoint next_row (x : A) (n : nat) (ys : list A) (prev : list (nat * nat))
  : list (nat * nat) :=
  match ys with
  | [] => [(n, 0%nat)]
  | y :: ys' =>
      let rest := next_row x n ys' (tl prev) in
      best (if eqb x y then keep (top (tl prev)) else edit (top (tl prev)))
           (edit (top prev))
           (edit (top rest))
      :: rest
  end.

Fixpoint table_row (xs ys : list A) : list (nat * nat) :=
  match xs with
  | [] => first_row ys
  | x :: xs' => next_row x (List.length xs) ys (table_row xs' ys)
  end.

(** Modelled from the spec: the alignment primitive of section 4.3
    (missing with the metric code): the table of the recurrence filled
    row by row, in time and space proportional to the product of the
    two lengths; the result is the distance and the number of matched
    characters. *)
Definition align (xs ys : list A) : nat * nat := top (table_row xs ys).

Definition edit_distance (xs ys : list A) : nat := fst (align xs ys).
Definition matches (xs ys : list A) : nat := snd (align xs ys).

Fixpoint list_eqb (xs ys : list A) : bool :=
  match xs, ys with
  | [], [] => true
  | x :: xs', y :: ys' => eqb x y && list_eqb xs' ys'
  | _, _ => false
  end.

End Alignment.

Definition chars_eqb : list ascii -> list ascii -> bool := list_eqb Ascii.eqb.

(** Modelled from the spec: the configured alignment length cap of
    section 4.3 (its value is missing). *)
Record AlignerConfig : Type := mkConfig {
  max_length : nat
}.

(** Modelled from the spec: the seven fixed metrics of section 3
    (the backend's metric dictionary is missing). *)
Record TextMetrics : Type := mkMetrics {
  cer : Q;
  wer : Q;
  normalized_levenshtein : Q;
  char_precision : Q;
  char_recall : Q;
  char_f1 : Q;
  exact_match : Q
}.

(** Modelled from the spec: the length cap of section 4.3 (missing with
    the metric code): the normalized text cut to the cap. *)
Definition capped (cfg : AlignerConfig) (s : string) : list ascii :=
  firstn (max_length cfg) (normalize s).

Definition exceeds (cfg : AlignerConfig) (s : string) : bool :=
  (max_length cfg <? List.length (normalize s))%nat.

(** Modelled from the spec: the guard of section 4.3 (missing with
    the metric code): every denominator is [max(1, n)]. *)
Definition denominator (n : nat) : Q := Qnat (Nat.max 1 n).

(** Modelled from the spec: F1 of section 4.3 (missing with the
    metric code): the harmonic mean, 0 when precision and recall are
    both 0. *)
Definition f1_score (p r : Q) : result Q :=
  if Qeq_bool (p + r) 0 then Ok 0 else divide (2 * p * r) (p + r).

(** Modelled from the spec: the metric formulas of section 4.3
    (metrics_calculator.py is missing), over the capped normalized
    texts; the second component records whether the cap cut a text. *)
Definition text_metrics (cfg : AlignerConfig) (extracted ground_truth : string)
  : result (TextMetrics * bool) :=
  let e := capped cfg extracted in
  let g := capped cfg ground_truth in
  let d := edit_distance Ascii.eqb e g in
  let m := matches Ascii.eqb e g in
  let dw := edit_distance chars_eqb (tokenize e) (tokenize g) in
  rbind (divide (Qnat d) (denominator (List.length g))) (fun cer =>
  rbind (divide (Qnat dw) (denominator (List.length (tokenize g)))) (fun wer =>
  rbind (divide (Qnat d)
           (denominator (Nat.max (List.length e) (List.length g)))) (fun nl =>
  rbind (divide (Qnat m) (denominator (List.length e))) (fun p =>
  rbind (divide (Qnat m) (denominator (List.length g))) (fun r =>
  rbind (f1_score p r) (fun f1 =>
  Ok (mkMetrics cer wer nl p r f1
        (if chars_eqb (normalize extracted) (normalize ground_truth)
         then 1 else 0),
      exceeds cfg extracted || exceeds cfg ground_truth))))))).

End Engine.

Module SampleClient.

Definition page : PageData.t := PageData.mk 1 "text" [] 1 false.

(** A report of a two-page document. *)
Definition report : OCRResponse.t :=
  OCRResponse.mk "text" [] [("cer", 0.05)] true true 2.34
    (Some [page; page]) (Some 2%Z) None None None.

(** A report without any of the optional members. *)
Definition bare : OCRResponse.t :=
  OCRResponse.mk "text" [] [] true true 0 None None None None None.

Definition clicks : list OCRColumnsDisplay.Action :=
  [OCRColumnsDisplay.NextPage; OCRColumnsDisplay.NextPage;
   OCRColumnsDisplay.NextPage; OCRColumnsDisplay.PrevPage].

(** A server that answers every request with the same response. *)
Definition server (response : Response.t)
  : string -> RequestInit -> promise Response.t :=
  fun _ _ => Resolved response.

Definition Number_toString (q : Q) : string := "0".

Definition String_length (s : string) : N := N.of_nat (String.length s).

Definition request (f : File) : OcrApi.OCRRequest :=
  OcrApi.mkRequest f None None None.

End SampleClient.

(** ** The other calls of the API client (lib/ocr-api.ts) *)

Module OcrApiCalls.

Section Client.

Variable NEXT_PUBLIC_API_BASE_URL : option string.
Variable fetch : string -> RequestInit -> promise Response.t.
Variable Number_toString : Q -> string.

Definition endpoint (path : string) : string :=
  (OcrApi.API_BASE_URL NEXT_PUBLIC_API_BASE_URL ++ path)%string.

(** [files.forEach(file => formData.append('files', file))]. *)
Definition batchProcessDocuments (files : list File) : io json :=
  (let init := mkInit "POST" (map (fun f => ("files", FFile f)) files) in
   let url := endpoint "/ocr/batch-process" in
   emit (FetchEv url init) ;;;
   response <- lift (fetch url init) ;;
   if negb (Response.ok response)
   then OcrApi.throw_http_error Number_toString response
   else lift (Response.json response))%io.

Definition processNoisyDocument (file : File) (ground_truth : option string)
  : io json :=
  (let init :=
     mkInit "POST"
       ([("file", FFile file)]
        ++ match ground_truth with
           | Some s =>
               if String.eqb s "" then [] else [("ground_truth", FString s)]
           | None => []
           end) in
   let url := endpoint "/noise/process" in
   emit (FetchEv url init) ;;;
   response <- lift (fetch url init) ;;
   if negb (Response.ok response)
   then OcrApi.throw_http_error Number_toString response
   else lift (Response.json response))%io.

Definition processPDFDocument (file : File) (ground_truth : option string)
  (expected_fields : option (list string))
  (schema : option (list (string * json))) : io json :=
  (let init :=
     mkInit "POST"
       ([("file", FFile file)]
        ++ match ground_truth with
           | Some s =>
               if String.eqb s "" then [] else [("ground_truth", FString s)]
           | None => []
           end
        ++ match expected_fields with
           | Some l => [("expected_fields", FJson (JArr (map JStr l)))]
           | None => []
           end
        ++ match schema with
           | Some o => [("schema", FJson (JObj o))]
           | None => []
           end) in
   let url := endpoint "/pdf/process" in
   emit (FetchEv url init) ;;;
   response <- lift (fetch url init) ;;
   if negb (Response.ok response)
   then OcrApi.throw_http_error Number_toString response
   else lift (Response.json response))%io.

(** [fetch(url)] without options is a GET without a body. *)
Definition checkAPIHealth : io bool :=
  try_catch
    (let init := mkInit "GET" [] in
     let url := endpoint "/health" in
     emit (FetchEv url init) ;;;
     response <- lift (fetch url init) ;;
     ret (Response.ok response))%io
    (fun _ => ret false).

End Client.
End OcrApiCalls.

(** ** The controls of the page view and of the metric cards *)

Module PageControls.

Import OCRColumnsDisplay.

(** [disabled={currentPage === 0}] on the previous-page button. *)
Definition prevDisabled (st : State) : bool := (currentPage st =? 0)%Z.

(** [disabled={currentPage === pages.length - 1}] on the next-page
    button. *)
Definition nextDisabled (pages : list PageData.t) (st : State) : bool :=
  (currentPage st =? Z.of_nat (List.length pages) - 1)%Z.

End PageControls.

Module MetricCard.

(** The literals [0.9] and [0.7] as rationals. *)
Definition getMetricColor (value : Q) : string :=
  if Qle_bool 0.9 value then "text-green-600"
  else if Qle_bool 0.7 value then "text-yellow-600"
  else "text-red-600".

Definition getMetricBadgeVariant (value : Q) : string :=
  if Qle_bool 0.9 value then "default"
  else if Qle_bool 0.7 value then "secondary"
  else "destructive".

(** The text of the badge:
    [value >= 0.9 ? 'Отлично' : value >= 0.7 ? 'Хорошо' : ...]. *)
Definition badgeText (value : Q) : string :=
  if Qle_bool 0.9 value then "Отлично"
  else if Qle_bool 0.7 value then "Хорошо"
  else "Требует улучшения".

End MetricCard.

(** ** The document actions (app/actions.ts) *)

Module DocumentActions.

Record SummarizeDocumentInput : Type := mkSummarizeInput {
  documentText : string
}.

Record SummarizeDocumentOutput : Type := mkSummarizeOutput {
  summary : string
}.

(** What pdf-parse resolves to, as far as the action reads it. *)
Record PdfData : Type := mkPdfData {
  numpages : N;
  text : string
}.

Definition pageBreak : string :=
  String "010" (String "010" (String "010" EmptyString)).

Section Library.

(** The summarizing flow. *)
Variable summarizeDocument :
  SummarizeDocumentInput -> promise SummarizeDocumentOutput.
(** [s.trim()] and [s.split(separator)] of the language. *)
Variable trim : string -> string.
Variable split : string -> string -> list string.
(** [pdf(buffer, { pagerender })] and [pdf(buffer)]; [None] is a falsy
    result. *)
Variable pdf_by_page : list N -> promise (option PdfData).
Variable pdf_plain : list N -> promise (option PdfData).

Definition summarizeText (documentText : string) : io (option string) :=
  try_catch
    (if String.eqb (trim documentText) ""
     then ret (Some "Document is empty.")
     else
       (out <- lift (summarizeDocument (mkSummarizeInput documentText)) ;;
        ret (Some (summary out)))%io)
    (fun error =>
       (emit (ConsoleError "Error in summarizeText:" error) ;;;
        ret None)%io).

(** [allTextData ? [allTextData.text] : null] after [pdf(buffer)]. *)
Definition allText (pdfBuffer : list N) : io (option (list string)) :=
  (allTextData <- lift (pdf_plain pdfBuffer) ;;
   ret (match allTextData with
        | Some d => Some [text d]
        | None => None
        end))%io.

Definition parsePdf (pdfBuffer : list N) : io (option (list string)) :=
  try_catch
    (data <- lift (pdf_by_page pdfBuffer) ;;
     match data with
     | None => allText pdfBuffer
     | Some d =>
         if (numpages d =? 0)%N
         then allText pdfBuffer
         else
           let pages :=
             filter (fun page => negb (String.eqb page ""))
               (map trim (split (text d) pageBreak)) in
           if (0 <? List.length pages)%nat
           then ret (Some pages)
           else allText pdfBuffer
     end)%io
    (fun error =>
       (emit (ConsoleError "Error parsing PDF:" error) ;;;
        ret None)%io).

End Library.
End DocumentActions.

(** ** The page of the application (app/page.tsx) *)

Module Home.

Record Document : Type := mkDocument {
  name : string;
  text : string;
  pages : list string
}.

(** The cells of the state the page navigation reads and writes. *)
Record State : Type := mkState {
  doc : option Document;
  currentPage : Z
}.

(** [processFile(pages.join('\n\n'), pages)] for a parsed PDF. *)
Definition pdfDocument (file : File) (pages : list string) : Document :=
  mkDocument (UI.name file)
    (join (String "010" (String "010" EmptyString)) pages) pages.

(** [processFile(text, [text])] for a text file. *)
Definition textDocument (file : File) (text : string) : Document :=
  mkDocument (UI.name file) text [text].

(** [setCurrentPage(0)] at the start of the upload, then [setDoc]. *)
Definition loaded (d : Document) : State := mkState (Some d) 0.

Definition goToPrevPage (st : State) : State :=
  mkState (doc st) (Z.max 0 (currentPage st - 1)).

Definition goToNextPage (st : State) : State :=
  match doc st with
  | None => st
  | Some d =>
      mkState (doc st)
        (Z.min (Z.of_nat (List.length (pages d)) - 1) (currentPage st + 1))
  end.

Inductive Action : Type := PrevPage | NextPage.

Definition step (st : State) (a : Action) : State :=
  match a with
  | PrevPage => goToPrevPage st
  | NextPage => goToNextPage st
  end.

(** The document is still loaded and the index points into its
    pages. *)
Definition in_range (d : Document) (st : State) : Prop :=
  doc st = Some d
  /\ (0 <= currentPage st <= Z.of_nat (List.length (pages d)) - 1)%Z.

(** The state after a sequence of clicks on a loaded document. *)
Definition run (d : Document) (actions : list Action) : State :=
  fold_left step actions (loaded d).

(** [doc.pages[currentPage]] in the text pane. *)
Definition shownPage (st : State) : option string :=
  match doc st with
  | None => None
  | Some d =>
      if (currentPage st <? 0)%Z then None
      else nth_error (pages d) (Z.to_nat (currentPage st))
  end.

End Home.

(** ** The chat panel (components/chat-panel.tsx) *)

Module ChatPanel.

Inductive Role : Type := user | assistant.

Record Message : Type := mkMessage {
  id : string;
  role : Role;
  content : string
}.

Record State : Type := mkState {
  messages : list Message;
  isLoading : bool
}.

Definition initial : State :=
  mkState
    [mkMessage "initial-assistant-message" assistant
       "I've reviewed the document. What would you like to know?"]
    false.

Definition failedToast : ToastOptions :=
  mkToast (Some "destructive") "Error"
    "Failed to get a response. Please try again.".

Section Component.

(** The imported server action, as the call settles in the browser. *)
Variable askQuestion : string -> string -> promise string.
Variable documentText : string.

(** The state while the answer is awaited; [now] is [Date.now()]. *)
Definition submitted (now : N) (message : string) (st : State) : State :=
  mkState (messages st ++ [mkMessage ("user-" ++ decimal now) user message])
    true.

(** [onSubmit]: the state once the handler has finished and the toasts
    it showed; [now1] and [now2] are the two readings of [Date.now()].
    The reset of the form is left out. *)
Definition onSubmit (now1 now2 : N) (message : string) (st : State)
  : State * list ToastOptions :=
  let st1 := submitted now1 message st in
  match askQuestion documentText message with
  | Resolved response =>
      (mkState
         (messages st1
          ++ [mkMessage ("assistant-" ++ decimal now2) assistant response])
         false,
       [])
  | Rejected _ => (mkState (messages st1) false, [failedToast])
  end.

(** The roles of [n] questions, each with its answer. *)
Fixpoint turns (n : nat) : list Role :=
  match n with
  | O => []
  | S k => user :: assistant :: turns k
  end.

(** A submitted question with the two clock readings of its handler. *)
Record Submission : Type := mkSubmission {
  now1 : N;
  now2 : N;
  message : string
}.

Definition submit (acc : State * list ToastOptions) (s : Submission)
  : State * list ToastOptions :=
  let r := onSubmit (now1 s) (now2 s) (message s) (fst acc) in
  (fst r, snd acc ++ snd r).

(** The panel after a sequence of questions submitted one after the
    other, each when the handler of the one before has finished. *)
Definition session (questions : list Submission)
  : State * list ToastOptions :=
  fold_left submit questions (initial, []).

Definition answered (s : Submission) : bool :=
  match askQuestion documentText (message s) with
  | Resolved _ => true
  | Rejected _ => false
  end.

End Component.

(** The server action called directly: how [askQuestion] settles when
    the call itself is delivered. *)
Definition delivered
  (llmChatWithDocument :
     Actions.LLMChatWithDocumentInput ->
     promise Actions.LLMChatWithDocumentOutput)
  (documentText userQuestion : string) : promise string :=
  outcome (Actions.askQuestion llmChatWithDocument documentText userQuestion).

End ChatPanel.

Module SampleLibrary.

(** A parser that finds two pages, for running the actions. *)
Definition trim (s : string) : string := s.

Definition split (s separator : string) : list string := ["one"; ""; "two"].

Definition pdf (pdfBuffer : list N) : promise (option DocumentActions.PdfData) :=
  Resolved (Some (DocumentActions.mkPdfData 2 "one two")).

Definition document : Home.Document :=
  Home.mkDocument "paper.pdf" "one two" ["one"; "two"].

Definition scan : File := mkFile "scan.pdf" "application/pdf" 2048.

(** A file whose name has no dot; a browser gives it no MIME type. *)
Definition extensionless : File := mkFile "pdf" "" 2048.

Definition props : OCRUpload.OCRUploadProps := OCRUpload.mkProps true true.

(** A server that answers with a report, and one that answers with an
    empty object. *)
Definition reports : string -> RequestInit -> promise Response.t :=
  SampleClient.server
    (Response.mk 200 (Resolved (OCRResponse.to_json SampleClient.bare))).

Definition empties : string -> RequestInit -> promise Response.t :=
  SampleClient.server (Response.mk 200 (Resolved (JObj []))).

End SampleLibrary.

Module ClientSpec.

(** How a call that posts a form settles, given how [fetch] settled:
    a network failure is passed on, and the call resolves exactly with
    the parsed body of an ok response. *)
Definition settles_as (fetched : promise Response.t) (o : promise json)
  : Prop :=
  match fetched with
  | Rejected e => o = Rejected e
  | Resolved response =>
      forall j, o = Resolved j <->
                Response.ok response = true
                /\ Response.json response = Resolved j
  end.

(** The character does not occur in the string. *)
Definition lacks (c : ascii) (s : string) : Prop :=
  ~ In c (list_ascii_of_string s).

(** Every character of the string is an ASCII character. *)
Definition ascii_only (s : string) : Prop :=
  Forall (fun c => (nat_of_ascii c < 128)%nat) (list_ascii_of_string s).

(** The extension of a file name: its last dot and what follows it; a
    name without a dot has none. *)
Fixpoint extension (name : string) : option string :=
  match name with
  | EmptyString => None
  | String c rest =>
      match extension rest with
      | Some e => Some e
      | None => if Ascii.eqb c "." then Some name else None
      end
  end.

(** The MIME types and the extensions the text uploader names, and
    whether a file has one of them. *)
Definition text_types : list string := ["text/plain"; "application/pdf"].

Definition text_extensions : list string := [".txt"; ".pdf"].

Definition within (allowed : list string) (e : option string) : bool :=
  match e with
  | Some x => includes allowed x
  | None => false
  end.

End ClientSpec.

(** * Properties *)

(** Unfolds the combinators of [io] and reduces the matches that
    become decidable, without unfolding the code under study. *)
Ltac run_io :=
  unfold bind, try_catch, finally, lift, ret, throw, emit, outcome, trace;
  cbv beta iota.

Create HintDb metrics.

(** ** The alignment primitive *)

Section AlignmentFacts.

Import Engine.

Context {A : Type}.
Variable eqb : A -> A -> bool.
Hypothesis eqb_refl : forall a, eqb a a = true.

Lemma recurrence_nil_r (x : A) (xs : list A) :
  recurrence eqb (x :: xs) [] = (S (List.length xs), 0%nat).
Proof. reflexivity. Qed.

Lemma recurrence_cons_cons (x y : A) (xs ys : list A) :
  recurrence eqb (x :: xs) (y :: ys) =
  best (if eqb x y then keep (recurrence eqb xs ys)
        else edit (recurrence eqb xs ys))
       (edit (recurrence eqb xs (y :: ys)))
       (edit (recurrence eqb (x :: xs) ys)).
Proof. reflexivity. Qed.

Lemma top_tails (f : list A -> nat * nat) (ys : list A) :
  top (map f (tails ys)) = f ys.
Proof. destruct ys; reflexivity. Qed.

Lemma first_row_tails (ys : list A) :
  first_row ys = map (recurrence eqb []) (tails ys).
Proof.
  induction ys as [|y ys IH]; [reflexivity|].
  cbn [first_row tails map]. now rewrite IH.
Qed.

Lemma next_row_tails (x : A) (xs ys : list A) :
  next_row eqb x (S (List.length xs)) ys (map (recurrence eqb xs) (tails ys))
  = map (recurrence eqb (x :: xs)) (tails ys).
Proof.
  induction ys as [|y ys IH]; [reflexivity|].
  cbn [next_row tails map tl]. rewrite IH.
  rewrite !top_tails. cbn [top hd].
  now rewrite recurrence_cons_cons.
Qed.

(** Each row of the table holds the recurrence at the suffixes. *)
Lemma table_row_tails (xs ys : list A) :
  table_row eqb xs ys = map (recurrence eqb xs) (tails ys).
Proof.
  induction xs as [|x xs IH]; cbn [table_row].
  - apply first_row_tails.
  - rewrite IH. apply next_row_tails.
Qed.

(** The table computes the recurrence. *)
Lemma align_recurrence (xs ys : list A) :
  align eqb xs ys = recurrence eqb xs ys.
Proof. unfold align. rewrite table_row_tails. apply top_tails. Qed.

Lemma best_cases (a b c : nat * nat) :
  best a b c = a \/ best a b c = b \/ best a b c = c.
Proof.
  unfold best.
  destruct (fst a <=? fst b)%nat, (fst a <=? fst c)%nat,
    (fst b <=? fst c)%nat; auto.
Qed.

Lemma best_le_diag (a b c : nat * nat) : (fst (best a b c) <= fst a)%nat.
Proof.
  unfold best.
  destruct (Nat.leb_spec (fst a) (fst b)), (Nat.leb_spec (fst a) (fst c)),
    (Nat.leb_spec (fst b) (fst c)); simpl; lia.
Qed.

Lemma list_eqb_refl (l : list A) : list_eqb eqb l l = true.
Proof.
  induction l as [|a l IH]; simpl; [reflexivity|].
  now rewrite eqb_refl, IH.
Qed.

(** A text is at distance 0 from itself. *)
Lemma edit_distance_refl (l : list A) : edit_distance eqb l l = 0%nat.
Proof.
  unfold edit_distance. rewrite align_recurrence.
  induction l as [|a l IH]; [reflexivity|].
  rewrite recurrence_cons_cons, eqb_refl.
  pose proof (best_le_diag (keep (recurrence eqb l l))
                (edit (recurrence eqb l (a :: l)))
                (edit (recurrence eqb (a :: l) l))) as H.
  change (fst (keep (recurrence eqb l l))) with (fst (recurrence eqb l l)) in H.
  rewrite IH in H. lia.
Qed.

End AlignmentFacts.

Section AlignmentBounds.

Import Engine.

Context {A : Type}.
Variable eqb : A -> A -> bool.

(** The distance never exceeds the longer text. *)
Lemma edit_distance_le_max (xs ys : list A) :
  (edit_distance eqb xs ys <= Nat.max (List.length xs) (List.length ys))%nat.
Proof.
  unfold edit_distance. rewrite align_recurrence. revert ys.
  induction xs as [|x xs IHx]; intros ys; [simpl; lia|].
  destruct ys as [|y ys]; [rewrite recurrence_nil_r; simpl; lia|].
  rewrite recurrence_cons_cons.
  etransitivity; [apply best_le_diag|].
  specialize (IHx ys).
  destruct (eqb x y); unfold keep, edit; simpl in *; lia.
Qed.

(** The matched characters never outnumber either text. *)
Lemma matches_le_min (xs ys : list A) :
  (matches eqb xs ys <= Nat.min (List.length xs) (List.length ys))%nat.
Proof.
  unfold matches. rewrite align_recurrence. revert ys.
  induction xs as [|x xs IHx]; intros ys; [simpl; lia|].
  induction ys as [|y ys IHy]; [rewrite recurrence_nil_r; simpl; lia|].
  rewrite recurrence_cons_cons.
  pose proof (IHx ys) as Hd. pose proof (IHx (y :: ys)) as Hl.
  destruct (best_cases
              (if eqb x y then keep (recurrence eqb xs ys)
               else edit (recurrence eqb xs ys))
              (edit (recurrence eqb xs (y :: ys)))
              (edit (recurrence eqb (x :: xs) ys))) as [E|[E|E]];
    rewrite E; clear E.
  - destruct (eqb x y); unfold keep, edit; cbn [fst snd List.length] in *; lia.
  - unfold edit; cbn [fst snd List.length] in *; lia.
  - unfold edit; cbn [fst snd List.length] in *; lia.
Qed.

End AlignmentBounds.

(** ** The metric formulas *)

Section MetricFacts.

Import Engine.

Lemma Qnat_nonneg (n : nat) : 0 <= Qnat n.
Proof. unfold Qnat. change 0 with (inject_Z 0). rewrite <- Zle_Qle. lia. Qed.

Lemma Qnat_le (n m : nat) : (n <= m)%nat -> Qnat n <= Qnat m.
Proof. intros H. unfold Qnat. rewrite <- Zle_Qle. lia. Qed.

Lemma denominator_pos (n : nat) : 0 < denominator n.
Proof.
  unfold denominator, Qnat. change 0 with (inject_Z 0).
  rewrite <- Zlt_Qlt. lia.
Qed.

Lemma denominator_ge_1 (n : nat) : 1 <= denominator n.
Proof.
  unfold denominator, Qnat. change 1 with (inject_Z 1).
  rewrite <- Zle_Qle. lia.
Qed.

(** No denominator of the formulas is zero: the division goes through. *)
Lemma divide_denominator (a : Q) (n : nat) :
  divide a (denominator n) = Ok (a / denominator n).
Proof.
  unfold divide. destruct (Qeq_bool (denominator n) 0) eqn:E; [|reflexivity].
  apply Qeq_bool_eq in E. pose proof (denominator_pos n). lra.
Qed.

Lemma ratio_nonneg (a n : nat) : 0 <= Qnat a / denominator n.
Proof.
  apply Qle_shift_div_l; [apply denominator_pos|].
  pose proof (Qnat_nonneg a). lra.
Qed.

Lemma ratio_le_1 (a n : nat) :
  (a <= Nat.max 1 n)%nat -> Qnat a / denominator n <= 1.
Proof.
  intros H. apply Qle_shift_div_r; [apply denominator_pos|].
  unfold denominator. apply Qnat_le in H. lra.
Qed.

#[local] Hint Resolve Qnat_nonneg denominator_pos ratio_nonneg ratio_le_1
  : metrics.

Lemma ratio_zero (n : nat) : Qnat 0 / denominator n == 0.
Proof. unfold Qdiv, Qnat. simpl. apply Qmult_0_l. Qed.

(** F1 is always defined, and lies in [0,1] with precision and recall. *)
Lemma f1_score_ok (p r : Q) :
  0 <= p -> 0 <= r ->
  exists v, f1_score p r = Ok v /\ 0 <= v /\ (p <= 1 -> r <= 1 -> v <= 1).
Proof.
  intros Hp Hr. unfold f1_score, divide.
  destruct (Qeq_bool (p + r) 0) eqn:E.
  - exists 0. repeat split; lra.
  - apply Qeq_bool_neq in E.
    assert (Hpos : 0 < p + r).
    { destruct (Qlt_le_dec 0 (p + r)) as [|Hle]; [assumption|].
      exfalso. apply E. lra. }
    exists (2 * p * r / (p + r)). split; [reflexivity|]. split.
    + apply Qle_shift_div_l; [assumption|]. nra.
    + intros. apply Qle_shift_div_r; [assumption|]. nra.
Qed.

(** The metrics of two texts, with each formula written out; the
    computation never raises. *)
Lemma text_metrics_ok (cfg : AlignerConfig) (extracted ground_truth : string) :
  let e := capped cfg extracted in
  let g := capped cfg ground_truth in
  let d := edit_distance Ascii.eqb e g in
  let m := matches Ascii.eqb e g in
  let dw := edit_distance chars_eqb (tokenize e) (tokenize g) in
  exists f1,
    f1_score (Qnat m / denominator (List.length e))
             (Qnat m / denominator (List.length g)) = Ok f1
    /\ text_metrics cfg extracted ground_truth =
       Ok (mkMetrics
             (Qnat d / denominator (List.length g))
             (Qnat dw / denominator (List.length (tokenize g)))
             (Qnat d / denominator (Nat.max (List.length e) (List.length g)))
             (Qnat m / denominator (List.length e))
             (Qnat m / denominator (List.length g))
             f1
             (if chars_eqb (normalize extracted) (normalize ground_truth)
              then 1 else 0),
           exceeds cfg extracted || exceeds cfg ground_truth).
Proof.
  intros e g d m dw.
  destruct (f1_score_ok (Qnat m / denominator (List.length e))
              (Qnat m / denominator (List.length g))
              (ratio_nonneg _ _) (ratio_nonneg _ _)) as (f1 & Hf1 & _).
  exists f1. split; [exact Hf1|].
  unfold text_metrics. fold e g. fold d m dw.
  rewrite !divide_denominator. cbn [rbind].
  rewrite Hf1. reflexivity.
Qed.

Lemma ascii_eqb_refl (c : ascii) : Ascii.eqb c c = true.
Proof. apply Ascii.eqb_refl. Qed.

Lemma chars_eqb_refl (l : list ascii) : chars_eqb l l = true.
Proof. apply list_eqb_refl, ascii_eqb_refl. Qed.

(** The ranges of the fixed metrics on the formulas of section 4.3,
    taken as ratios without a clamp: five of them lie in [0,1]; cer
    and wer are non-negative, and at most 1 when the capped extracted
    text is no longer than max(1, length of the capped reference). *)
Lemma text_metrics_ranges (cfg : AlignerConfig) (extracted ground_truth : string)
  (m : TextMetrics) (t : bool) :
  text_metrics cfg extracted ground_truth = Ok (m, t) ->
  let e := capped cfg extracted in
  let g := capped cfg ground_truth in
  (0 <= normalized_levenshtein m /\ normalized_levenshtein m <= 1)
  /\ (0 <= char_precision m /\ char_precision m <= 1)
  /\ (0 <= char_recall m /\ char_recall m <= 1)
  /\ (0 <= char_f1 m /\ char_f1 m <= 1)
  /\ (exact_match m = 0 \/ exact_match m = 1)
  /\ 0 <= cer m
  /\ 0 <= wer m
  /\ ((List.length e <= Nat.max 1 (List.length g))%nat -> cer m <= 1)
  /\ ((List.length (tokenize e) <= Nat.max 1 (List.length (tokenize g)))%nat
      -> wer m <= 1).
Proof.
  intros H e g.
  destruct (text_metrics_ok cfg extracted ground_truth) as (f1 & Hf1 & E).
  rewrite E in H. injection H as <- _. fold e g in Hf1 |- *.
  cbn [cer wer normalized_levenshtein char_precision char_recall char_f1
       exact_match].
  pose proof (edit_distance_le_max Ascii.eqb e g) as Hd.
  pose proof (edit_distance_le_max chars_eqb (tokenize e) (tokenize g)) as Hw.
  pose proof (matches_le_min Ascii.eqb e g) as Hm.
  assert (Hp : Qnat (matches Ascii.eqb e g) / denominator (List.length e) <= 1)
    by (auto with metrics zarith).
  assert (Hr : Qnat (matches Ascii.eqb e g) / denominator (List.length g) <= 1)
    by (auto with metrics zarith).
  destruct (f1_score_ok _ _ (ratio_nonneg (matches Ascii.eqb e g)
                               (List.length e))
              (ratio_nonneg (matches Ascii.eqb e g) (List.length g)))
    as (v & Hv & Hv0 & Hv1).
  rewrite Hf1 in Hv. injection Hv as <-.
  repeat split; try apply ratio_nonneg; try assumption; auto.
  - apply ratio_le_1. lia.
  - destruct (chars_eqb _ _); auto.
  - intros Hlen. apply ratio_le_1. lia.
  - intros Hlen. apply ratio_le_1. lia.
Qed.

Lemma chars_eqb_eq (l1 l2 : list ascii) : chars_eqb l1 l2 = true <-> l1 = l2.
Proof.
  unfold chars_eqb. revert l2.
  induction l1 as [|a l1 IH]; intros [|b l2]; cbn [list_eqb];
    try (split; [discriminate|discriminate]); [tauto|].
  rewrite andb_true_iff, Ascii.eqb_eq, IH.
  split; [intros [-> ->]; reflexivity|intros H; injection H; auto].
Qed.

(** exact_match is 1 exactly when the normalized texts are equal. *)
Lemma exact_match_iff (cfg : AlignerConfig) (extracted ground_truth : string)
  (m : TextMetrics) (t : bool) :
  text_metrics cfg extracted ground_truth = Ok (m, t) ->
  (exact_match m = 1 <-> normalize extracted = normalize ground_truth).
Proof.
  intros H.
  destruct (text_metrics_ok cfg extracted ground_truth) as (f1 & _ & E).
  rewrite E in H. injection H as <- _. cbn [exact_match].
  rewrite <- chars_eqb_eq.
  destruct (chars_eqb _ _); split; try reflexivity; discriminate.
Qed.

End MetricFacts.

(** ** The TextAligner *)

Section TextAlignerProperties.

Import Engine.

(** C1. Identity: when the extracted text and the ground truth are
    equal after normalization (case-fold, collapse whitespace, trim),
    the metrics are computed and cer = wer = normalized_levenshtein = 0
    and exact_match = 1. *)
Theorem identity_metrics (cfg : AlignerConfig) (extracted ground_truth : string) :
  normalize extracted = normalize ground_truth ->
  exists m t,
    text_metrics cfg extracted ground_truth = Ok (m, t)
    /\ cer m == 0
    /\ wer m == 0
    /\ normalized_levenshtein m == 0
    /\ exact_match m = 1.
Proof.
  intros H.
  destruct (text_metrics_ok cfg extracted ground_truth) as (f1 & _ & E).
  rewrite E. eexists. eexists. split; [reflexivity|].
  assert (Hc : capped cfg extracted = capped cfg ground_truth)
    by (unfold capped; now rewrite H).
  cbn [cer wer normalized_levenshtein exact_match].
  rewrite Hc, H.
  rewrite (edit_distance_refl Ascii.eqb ascii_eqb_refl).
  rewrite (edit_distance_refl chars_eqb chars_eqb_refl).
  rewrite chars_eqb_refl.
  repeat split; apply ratio_zero.
Qed.

Lemma identity_metrics_witness :
  exists m t,
    text_metrics (mkConfig 100) "Hello   World " "hello world" = Ok (m, t)
    /\ cer m == 0
    /\ wer m == 0
    /\ normalized_levenshtein m == 0
    /\ exact_match m = 1.
Proof. apply identity_metrics. reflexivity. Defined.

(** C2. Both texts empty after normalization: the metrics are
    computed without a division by zero, every denominator being
    max(1, 0) = 1; cer = wer = normalized_levenshtein = 0 and
    exact_match = 1. *)
Theorem empty_metrics (cfg : AlignerConfig) (extracted ground_truth : string) :
  normalize extracted = [] ->
  normalize ground_truth = [] ->
  exists m,
    text_metrics cfg extracted ground_truth = Ok (m, false)
    /\ cer m == 0
    /\ wer m == 0
    /\ normalized_levenshtein m == 0
    /\ exact_match m = 1
    /\ denominator (List.length (capped cfg ground_truth)) = 1
    /\ denominator (List.length (tokenize (capped cfg ground_truth))) = 1
    /\ denominator (Nat.max (List.length (capped cfg extracted))
                      (List.length (capped cfg ground_truth))) = 1
    /\ denominator (List.length (capped cfg extracted)) = 1.
Proof.
  intros He Hg.
  destruct (text_metrics_ok cfg extracted ground_truth) as (f1 & _ & E).
  rewrite E. clear E.
  assert (Hce : capped cfg extracted = [])
    by (unfold capped; rewrite He; apply firstn_nil).
  assert (Hcg : capped cfg ground_truth = [])
    by (unfold capped; rewrite Hg; apply firstn_nil).
  unfold exceeds. rewrite Hce, Hcg, He, Hg.
  eexists. split; [reflexivity|].
  cbn. repeat split; reflexivity.
Qed.

Lemma empty_metrics_witness :
  exists m,
    text_metrics (mkConfig 100) "" "  " = Ok (m, false)
    /\ cer m == 0
    /\ wer m == 0
    /\ normalized_levenshtein m == 0
    /\ exact_match m = 1
    /\ denominator (List.length (capped (mkConfig 100) "  ")) = 1
    /\ denominator (List.length (tokenize (capped (mkConfig 100) "  "))) = 1
    /\ denominator (Nat.max (List.length (capped (mkConfig 100) ""))
                      (List.length (capped (mkConfig 100) "  "))) = 1
    /\ denominator (List.length (capped (mkConfig 100) "")) = 1.
Proof. apply empty_metrics; reflexivity. Defined.

End TextAlignerProperties.

(** ** Page navigation *)

Section NavigationProperties.

Import OCRColumnsDisplay.

Variable result : OCRResponse.t.
Variable pages : list PageData.t.
Hypothesis result_pages : OCRResponse.pages result = Some pages.
Hypothesis pages_nonempty : pages <> [].

Local Abbreviation in_range := (OCRColumnsDisplay.in_range pages).

Lemma pages_length_pos : (0 < List.length pages)%nat.
Proof. destruct pages; [contradiction|simpl; lia]. Qed.

Lemma hasPages_true : hasPages result = true.
Proof.
  unfold hasPages. rewrite result_pages.
  apply Nat.ltb_lt, pages_length_pos.
Qed.

(** Every action keeps the index inside the page list. *)
Lemma step_in_range (st : State) (a : Action) :
  in_range st -> in_range (step result st a).
Proof.
  pose proof pages_length_pos as Hlen.
  unfold OCRColumnsDisplay.in_range. intros H.
  destruct a; cbn [step]; [| |exact H].
  - unfold goToPrevPage. rewrite result_pages, hasPages_true.
    cbn [currentPage]. lia.
  - unfold goToNextPage. rewrite result_pages, hasPages_true.
    cbn [currentPage]. lia.
Qed.

Lemma fold_in_range (actions : list Action) (st : State) :
  in_range st -> in_range (fold_left (step result) actions st).
Proof.
  revert st. induction actions as [|a actions IH]; intros st H; [exact H|].
  cbn [fold_left]. apply IH, step_in_range, H.
Qed.

Lemma in_range_page (st : State) :
  in_range st -> exists page, currentPageData pages st = Some page.
Proof.
  unfold OCRColumnsDisplay.in_range, currentPageData. intros H.
  destruct (Z.ltb_spec (currentPage st) 0); [lia|].
  destruct (nth_error pages (Z.to_nat (currentPage st))) as [page|] eqn:E.
  - exists page. reflexivity.
  - apply nth_error_None in E. lia.
Qed.

(** C10. For a non-empty page list the index starts at 0 and, after
    any sequence of goToPrevPage / goToNextPage calls (and view
    changes), lies in [0, pages.length - 1], so that pages[currentPage]
    is a page. *)
Theorem currentPage_valid (actions : list Action) :
  currentPage initial = 0%Z
  /\ (0 <= currentPage (run result actions)
      <= Z.of_nat (List.length pages) - 1)%Z
  /\ exists page, currentPageData pages (run result actions) = Some page.
Proof.
  assert (H0 : in_range initial).
  { pose proof pages_length_pos. unfold OCRColumnsDisplay.in_range, initial.
    cbn [currentPage]. lia. }
  pose proof (fold_in_range actions initial H0) as H.
  split; [reflexivity|]. split; [exact H|].
  apply in_range_page, H.
Qed.

End NavigationProperties.

Lemma currentPage_valid_witness :
  OCRColumnsDisplay.currentPage OCRColumnsDisplay.initial = 0%Z
  /\ (0 <= OCRColumnsDisplay.currentPage
            (OCRColumnsDisplay.run SampleClient.report SampleClient.clicks)
      <= Z.of_nat (List.length [SampleClient.page; SampleClient.page]) - 1)%Z
  /\ exists p,
       OCRColumnsDisplay.currentPageData [SampleClient.page; SampleClient.page]
         (OCRColumnsDisplay.run SampleClient.report SampleClient.clicks)
       = Some p.
Proof.
  apply (currentPage_valid SampleClient.report
           [SampleClient.page; SampleClient.page]).
  - reflexivity.
  - discriminate.
Defined.

(** ** The server action *)

Section ActionProperties.

Import Actions.

Variable llmChatWithDocument :
  LLMChatWithDocumentInput -> promise LLMChatWithDocumentOutput.

(** C9. askQuestion always resolves to a string and never rejects;
    when the flow throws, it logs the error and resolves with the fixed
    fallback message, and when the flow answers, with the answer. *)
Theorem askQuestion_resolves (documentText userQuestion : string) :
  exists s,
    outcome (askQuestion llmChatWithDocument documentText userQuestion)
    = Resolved s
    /\ match llmChatWithDocument (mkInput documentText userQuestion) with
       | Resolved out =>
           s = answer out
           /\ trace (askQuestion llmChatWithDocument documentText
                       userQuestion) = []
       | Rejected error =>
           s = "Sorry, I encountered an error while processing your question."
           /\ trace (askQuestion llmChatWithDocument documentText
                       userQuestion)
              = [ConsoleError "Error in askQuestion:" error]
       end.
Proof.
  unfold askQuestion. run_io.
  destruct (llmChatWithDocument (mkInput documentText userQuestion))
    as [out|error]; cbn.
  - exists (answer out). repeat split.
  - exists fallback. repeat split.
Qed.

End ActionProperties.

(** ** The upload components *)

Section UploadProperties.

Variable NEXT_PUBLIC_API_BASE_URL : option string.
Variable fetch : string -> RequestInit -> promise Response.t.
Variable Number_toString : Q -> string.
Variable String_length : string -> N.
Variable props : OCRUpload.OCRUploadProps.

Local Abbreviation ocrHandleFile :=
  (OCRUpload.handleFile NEXT_PUBLIC_API_BASE_URL fetch Number_toString
     String_length props).

(** A file the text uploader accepts is handed over exactly once. *)
Lemma DocUpload_accepts (file : File) :
  DocUpload.isSupported file = true ->
  DocUpload.handleFile (Some file) = [OnFileUpload file].
Proof. unfold DocUpload.handleFile. now intros ->. Qed.

(** Whatever the file, the OCR uploader reaches the network at most
    once: a failed call is reported, not repeated. *)
Lemma OCRUpload_at_most_one_call (file : option File) :
  (count is_fetch (trace (ocrHandleFile file)) <= 1)%nat.
Proof.
  destruct file as [f|]; [|cbn; lia].
  unfold OCRUpload.handleFile.
  destruct (negb _); [cbn; lia|].
  destruct (_ <? _)%N; [cbn; lia|].
  unfold OCRUpload.process, OcrApi.processDocumentOCR.
  destruct (fetch _ _) as [response|e]; [|cbn; destruct (OCRUpload.onError props); cbn; lia].
  destruct (negb (Response.ok response)) eqn:Hok.
  - cbn. rewrite Hok. unfold OcrApi.throw_http_error.
    destruct (Response.json response) as [j|e]; cbn.
    + destruct (get_property j "detail") as [d|e]; cbn;
        destruct (OCRUpload.onError props); cbn; lia.
    + destruct (OCRUpload.onError props); cbn; lia.
  - cbn. rewrite Hok.
    destruct (Response.json response) as [j|e]; cbn.
    + destruct (OCRUpload.onOCRComplete props); cbn;
        destruct (get_property j "extracted_text") as [t|e]; cbn;
        try destruct (OCRUpload.length_text Number_toString String_length t);
        cbn; destruct (OCRUpload.onError props); cbn; lia.
    + destruct (OCRUpload.onError props); cbn; lia.
Qed.

End UploadProperties.

(** ** The API client *)

Section ClientProperties.

Import OcrApi.

Variable NEXT_PUBLIC_API_BASE_URL : option string.
Variable fetch : string -> RequestInit -> promise Response.t.
Variable Number_toString : Q -> string.

Local Abbreviation call :=
  (processDocumentOCR NEXT_PUBLIC_API_BASE_URL fetch Number_toString).
Local Abbreviation url :=
  (API_BASE_URL NEXT_PUBLIC_API_BASE_URL ++ "/ocr/process")%string.

Variable request : OCRRequest.
Variable response : Response.t.
Hypothesis fetched :
  fetch url (mkInit "POST" (formData request)) = Resolved response.

Lemma call_unfold :
  call request =
  bind (emit (FetchEv url (mkInit "POST" (formData request))))
    (fun _ => if negb (Response.ok response)
              then throw_http_error Number_toString response
              else lift (Response.json response)).
Proof.
  unfold processDocumentOCR. rewrite fetched.
  unfold bind, emit, lift.
  destruct (if negb (Response.ok response)
            then throw_http_error Number_toString response
            else (([] : list event), Response.json response)); reflexivity.
Qed.

(** A response that is not ok never yields a report. *)
Lemma not_ok_rejects :
  Response.ok response = false ->
  exists e, outcome (call request) = Rejected e.
Proof.
  intros Hok. rewrite call_unfold, Hok. cbn [negb].
  unfold throw_http_error.
  destruct (Response.json response) as [errorData|e]; cbn.
  - destruct (get_property errorData "detail") as [d|e]; cbn;
      eexists; reflexivity.
  - eexists; reflexivity.
Qed.


(** With an unparseable body, or a body that is not null and has no
    truthy [detail], the error carries the HTTP status. *)
Lemma not_ok_status :
  Response.ok response = false ->
  (exists e, Response.json response = Rejected e)
  \/ (exists errorData d,
        Response.json response = Resolved errorData
        /\ get_property errorData "detail" = Resolved d
        /\ truthy d = false) ->
  outcome (call request) =
  Rejected (Error ("HTTP error! status: " ++ decimal (Response.status response))).
Proof.
  intros Hok H. rewrite call_unfold, Hok. cbn [negb].
  unfold throw_http_error.
  run_io.
  destruct H as [(e & ->) | (errorData & d & -> & Hget & Ht)]; run_io.
  - reflexivity.
  - rewrite Hget. run_io. rewrite Ht. reflexivity.
Qed.

(** An ok response is answered with its parsed body. *)
Lemma ok_returns_body :
  Response.ok response = true ->
  outcome (call request) = Response.json response.
Proof.
  intros Hok. rewrite call_unfold, Hok. cbn.
  destruct (Response.json response); reflexivity.
Qed.

End ClientProperties.

(** C8 at an error response whose body is the JSON text null: the
    status is not ok, and reading [detail] from the parsed body throws
    a TypeError, so the rejection carries neither a detail message nor
    the HTTP status. *)
Theorem null_error_body (base : option string)
  (Number_toString : Q -> string) (request : OcrApi.OCRRequest) :
  Response.ok (Response.mk 500 (Resolved JNull)) = false
  /\ outcome (OcrApi.processDocumentOCR base
                (SampleClient.server (Response.mk 500 (Resolved JNull)))
                Number_toString request)
     = Rejected
         (TypeError "Cannot read properties of null (reading 'detail')")
  /\ outcome (OcrApi.processDocumentOCR base
                (SampleClient.server (Response.mk 500 (Resolved JNull)))
                Number_toString request)
     <> Rejected (Error "HTTP error! status: 500").
Proof.
  split; [reflexivity|].
  split; [reflexivity|].
  cbn. discriminate.
Qed.

(** ** Worked examples *)

Example normalize_example :
  Engine.normalize "  Hello   World " = list_ascii_of_string "hello world".
Proof. reflexivity. Qed.

Example kitten_sitting :
  Engine.align Ascii.eqb (list_ascii_of_string "kitten")
    (list_ascii_of_string "sitting") = (3%nat, 4%nat).
Proof. vm_compute. reflexivity. Qed.

Example fileExtension_examples :
  OCRUpload.fileExtension (mkFile "scan.PDF" "application/pdf" 1) = ".pdf"
  /\ OCRUpload.fileExtension (mkFile "archive.tar.gz" "" 1) = ".gz"
  /\ OCRUpload.fileExtension (mkFile "README" "" 1) = ".readme"
  /\ OCRUpload.fileExtension (mkFile "pdf" "" 1) = ".pdf".
Proof. repeat split; reflexivity. Qed.

Example chart_label :
  OCRMetrics.chartData SampleClient.report
  = [OCRMetrics.mkEntry "Cer" (0.05 * 100) 0.05].
Proof. reflexivity. Qed.

(** An accepted scan whose request succeeds: one request, the result
    stored and announced. *)
Example upload_success :
  OCRUpload.handleFile None
    (SampleClient.server
       (Response.mk 200 (Resolved (OCRResponse.to_json SampleClient.bare))))
    SampleClient.Number_toString SampleClient.String_length
    (OCRUpload.mkProps true false)
    (Some (mkFile "scan.pdf" "application/pdf" 2048))
  = ([SetIsProcessing true; SetProgress 0; SetResult None; SetInterval 200;
      FetchEv "http://127.0.0.1:8000/ocr/process"
        (mkInit "POST"
           [("file", FFile (mkFile "scan.pdf" "application/pdf" 2048))]);
      ClearInterval; SetProgress 100;
      SetResult (Some (OCRResponse.to_json SampleClient.bare));
      OnOCRComplete (OCRResponse.to_json SampleClient.bare);
      ToastEv (mkToast None "OCR обработка завершена"
                 "Извлечено 4 символов");
      SetIsProcessing false; SetTimeout 1000],
     Resolved tt).
Proof. reflexivity. Qed.

(** A 404 answered with a detail, and a 502 without a JSON body. *)
Example http_errors :
  outcome (OcrApi.processDocumentOCR None
             (SampleClient.server
                (Response.mk 404
                   (Resolved (JObj [("detail", JStr "Not Found")]))))
             SampleClient.Number_toString
             (SampleClient.request (mkFile "scan.pdf" "" 1)))
  = Rejected (Error "Not Found")
  /\ outcome (OcrApi.processDocumentOCR None
                (SampleClient.server
                   (Response.mk 502
                      (Rejected (SyntaxError "Unexpected token <"))))
                SampleClient.Number_toString
                (SampleClient.request (mkFile "scan.pdf" "" 1)))
     = Rejected (Error "HTTP error! status: 502").
Proof. split; reflexivity. Qed.

(** * Further properties of the client code *)

(** ** The calls of the API client *)

Section ApiCallProperties.

Import OcrApi ClientSpec.

Variable NEXT_PUBLIC_API_BASE_URL : option string.
Variable fetch : string -> RequestInit -> promise Response.t.
Variable Number_toString : Q -> string.

(** The tail every posting call of the client ends with. *)
Local Abbreviation post url init :=
  (bind (emit (FetchEv url init))
     (fun _ =>
        bind (lift (fetch url init))
          (fun response =>
             if negb (Response.ok response)
             then throw_http_error Number_toString response
             else lift (Response.json response)))).

Lemma throw_http_error_rejects (response : Response.t) :
  exists e, throw_http_error Number_toString response = ([], Rejected e).
Proof.
  unfold throw_http_error. run_io.
  destruct (Response.json response) as [errorData|e]; run_io.
  - destruct (get_property errorData "detail") as [d|e]; run_io;
      eexists; reflexivity.
  - eexists; reflexivity.
Qed.

Lemma post_settles (url : string) (init : RequestInit) :
  trace (post url init) = [FetchEv url init]
  /\ settles_as (fetch url init) (outcome (post url init)).
Proof.
  unfold settles_as. run_io.
  destruct (fetch url init) as [response|e]; [|split; reflexivity].
  destruct (Response.ok response) eqn:Hok; cbn [negb].
  - cbn. split; [reflexivity|].
    intros j. split; [intros H; split; [reflexivity|exact H]|tauto].
  - destruct (throw_http_error_rejects response) as (e & ->).
    cbn. split; [reflexivity|].
    intros j. split; [discriminate|intros [H _]; discriminate].
Qed.

(** X1. processDocumentOCR makes exactly one request; a network
    failure is passed on unchanged, and the call resolves exactly when
    the response is ok and its body parses, with that body. *)
Theorem processDocumentOCR_settles (request : OCRRequest) :
  trace (processDocumentOCR NEXT_PUBLIC_API_BASE_URL fetch Number_toString
           request)
  = [FetchEv (API_BASE_URL NEXT_PUBLIC_API_BASE_URL ++ "/ocr/process")
       (mkInit "POST" (formData request))]
  /\ settles_as
       (fetch (API_BASE_URL NEXT_PUBLIC_API_BASE_URL ++ "/ocr/process")
          (mkInit "POST" (formData request)))
       (outcome (processDocumentOCR NEXT_PUBLIC_API_BASE_URL fetch
                   Number_toString request)).
Proof. apply post_settles. Qed.

(** X2. The form of a request always starts with the file, never
    repeats a field name, uses no name beyond the four of the API, and
    leaves out an empty ground truth as it leaves out a missing one. *)
Theorem formData_shape (request : OCRRequest) :
  hd_error (formData request) = Some ("file", FFile (file request))
  /\ NoDup (map fst (formData request))
  /\ incl (map fst (formData request))
       ["file"; "ground_truth"; "expected_fields"; "schema"]
  /\ formData (mkRequest (file request) (Some "") (expected_fields request)
                 (schema request))
     = formData (mkRequest (file request) None (expected_fields request)
                   (schema request)).
Proof.
  destruct request as [f gt ef sc]. unfold formData. cbn [file ground_truth
    expected_fields schema].
  split; [reflexivity|].
  split; [|split; [|reflexivity]].
  - destruct gt as [g|]; [destruct (String.eqb g "")|];
      destruct ef, sc; cbn;
      repeat (constructor; [cbn; intuition discriminate|]); constructor.
  - destruct gt as [g|]; [destruct (String.eqb g "")|];
      destruct ef, sc; cbn; intros k Hk; cbn in *; intuition.
Qed.

(** X3. batchProcessDocuments, processNoisyDocument and
    processPDFDocument each make exactly one request and settle as
    processDocumentOCR does: a network failure is passed on, and the
    call resolves exactly with the parsed body of an ok response. *)
Theorem sibling_calls_settle (files : list File) (file : File)
  (ground_truth : option string) (expected_fields : option (list string))
  (schema : option (list (string * json))) :
  let batch := OcrApiCalls.batchProcessDocuments NEXT_PUBLIC_API_BASE_URL
                 fetch Number_toString files in
  let noisy := OcrApiCalls.processNoisyDocument NEXT_PUBLIC_API_BASE_URL
                 fetch Number_toString file ground_truth in
  let pdf := OcrApiCalls.processPDFDocument NEXT_PUBLIC_API_BASE_URL
               fetch Number_toString file ground_truth expected_fields
               schema in
  (exists url init,
     trace batch = [FetchEv url init]
     /\ settles_as (fetch url init) (outcome batch))
  /\ (exists url init,
        trace noisy = [FetchEv url init]
        /\ settles_as (fetch url init) (outcome noisy))
  /\ (exists url init,
        trace pdf = [FetchEv url init]
        /\ settles_as (fetch url init) (outcome pdf)).
Proof.
  intros batch noisy pdf.
  repeat split; eexists; eexists; apply post_settles.
Qed.

(** X4. processPDFDocument sends the form processDocumentOCR sends
    for the same file and options, to /pdf/process; processNoisyDocument
    sends that form without expected fields and schema, to
    /noise/process; batchProcessDocuments sends one "files" field per
    file, in order. *)
Theorem sibling_forms (files : list File) (file : File)
  (ground_truth : option string) (expected_fields : option (list string))
  (schema : option (list (string * json))) :
  trace (OcrApiCalls.processPDFDocument NEXT_PUBLIC_API_BASE_URL fetch
           Number_toString file ground_truth expected_fields schema)
  = [FetchEv (API_BASE_URL NEXT_PUBLIC_API_BASE_URL ++ "/pdf/process")
       (mkInit "POST"
          (formData (mkRequest file ground_truth expected_fields schema)))]
  /\ trace (OcrApiCalls.processNoisyDocument NEXT_PUBLIC_API_BASE_URL fetch
              Number_toString file ground_truth)
     = [FetchEv (API_BASE_URL NEXT_PUBLIC_API_BASE_URL ++ "/noise/process")
          (mkInit "POST" (formData (mkRequest file ground_truth None None)))]
  /\ (exists init,
        trace (OcrApiCalls.batchProcessDocuments NEXT_PUBLIC_API_BASE_URL
                 fetch Number_toString files)
        = [FetchEv
             (API_BASE_URL NEXT_PUBLIC_API_BASE_URL ++ "/ocr/batch-process")
             init]
        /\ map fst (body init) = repeat "files" (List.length files)
        /\ map snd (body init) = map FFile files).
Proof.
  split; [|split].
  - etransitivity; [apply (proj1 (post_settles _ _))|].
    unfold formData, OcrApiCalls.endpoint.
    cbn [OcrApi.file OcrApi.ground_truth OcrApi.expected_fields OcrApi.schema].
    reflexivity.
  - etransitivity; [apply (proj1 (post_settles _ _))|].
    unfold formData, OcrApiCalls.endpoint.
    cbn [OcrApi.file OcrApi.ground_truth OcrApi.expected_fields OcrApi.schema].
    rewrite !app_nil_r. reflexivity.
  - eexists. split; [apply (proj1 (post_settles _ _))|].
    cbn [body]. rewrite !map_map. cbn [fst snd]. split.
    + induction files as [|f l IH]; cbn; [reflexivity|now rewrite IH].
    + reflexivity.
Qed.

(** X5. checkAPIHealth never rejects: it resolves to true exactly when
    the request resolves with an ok status, and to false otherwise,
    a network failure included. *)
Theorem checkAPIHealth_resolves :
  exists b,
    outcome (OcrApiCalls.checkAPIHealth NEXT_PUBLIC_API_BASE_URL fetch)
    = Resolved b
    /\ (b = true <->
        exists response,
          fetch (API_BASE_URL NEXT_PUBLIC_API_BASE_URL ++ "/health")
            (mkInit "GET" []) = Resolved response
          /\ Response.ok response = true).
Proof.
  unfold OcrApiCalls.checkAPIHealth, OcrApiCalls.endpoint. run_io.
  destruct (fetch _ _) as [response|e]; cbn.
  - exists (Response.ok response). split; [reflexivity|].
    split.
    + intros H. exists response. split; [reflexivity|exact H].
    + intros (r & Hr & Hok). injection Hr as <-. exact Hok.
  - exists false. split; [reflexivity|].
    split; [discriminate|intros (r & Hr & _); discriminate].
Qed.

End ApiCallProperties.

(** ** The OCR upload handler, case by case *)

Ltac unfold_upload :=
  unfold OCRUpload.handleFile, OCRUpload.process, OCRUpload.report,
    OCRUpload.when, OcrApi.processDocumentOCR, OcrApi.throw_http_error;
  run_io.

(** Splits on the innermost undecided test of the goal. *)
Ltac step_upload :=
  match goal with
  | |- context [match ?x with _ => _ end] =>
      lazymatch x with
      | context [match _ with _ => _ end] => fail
      | _ => destruct x eqn:?
      end
  end;
  cbn -[get_property OCRUpload.length_text truthy ToString
        OCRUpload.fileExtension includes OCRUpload.supportedFormats
        N.ltb OCRUpload.maxSize OcrApi.API_BASE_URL String.append
        Response.ok decimal OCRUpload.unsupportedFormat
        OCRUpload.fileTooLarge].

Section UploadCases.

Variable NEXT_PUBLIC_API_BASE_URL : option string.
Variable fetch : string -> RequestInit -> promise Response.t.
Variable Number_toString : Q -> string.
Variable String_length : string -> N.
Variable props : OCRUpload.OCRUploadProps.

Local Abbreviation ocrHandleFile :=
  (OCRUpload.handleFile NEXT_PUBLIC_API_BASE_URL fetch Number_toString
     String_length props).
Local Abbreviation ocrUrl :=
  (OcrApi.API_BASE_URL NEXT_PUBLIC_API_BASE_URL ++ "/ocr/process")%string.
Local Abbreviation ocrInit f :=
  (mkInit "POST" (OcrApi.formData (OcrApi.mkRequest f None None None))).

(** X6. OCRUpload.handleFile never rejects: whatever the file, the
    network and the response, its promise resolves; every failure of
    the request ends in the catch block. *)
Theorem handleFile_resolves (file : option File) :
  outcome (ocrHandleFile file) = Resolved tt.
Proof. unfold_upload. repeat step_upload; reflexivity. Qed.

(** X7. OCRUpload.handleFile sends one request when the extension of
    the file is a supported format and the file is at most 10 MiB, and
    none otherwise; it never sends two. *)
Theorem handleFile_requests (f : File) :
  (count is_fetch (trace (ocrHandleFile (Some f))) = 1%nat
   \/ count is_fetch (trace (ocrHandleFile (Some f))) = 0%nat)
  /\ (count is_fetch (trace (ocrHandleFile (Some f))) = 1%nat <->
      includes OCRUpload.supportedFormats (OCRUpload.fileExtension f) = true
      /\ (size f <= OCRUpload.maxSize)%N).
Proof.
  unfold_upload.
  repeat step_upload;
    rewrite ?negb_true_iff, ?negb_false_iff, ?N.ltb_lt, ?N.ltb_ge in *;
    cbn -[includes OCRUpload.supportedFormats OCRUpload.fileExtension
          OCRUpload.maxSize N.le];
    (split; [auto|]); split; intros; try discriminate;
    try (split; assumption); try reflexivity;
    match goal with
    | H : _ /\ _ |- _ => destruct H; try congruence; try lia
    end.
Qed.

(** X8. For every file OCRUpload.handleFile shows exactly one toast:
    the rejection, the success or the failure of the request. *)
Theorem handleFile_one_toast (f : File) :
  count is_toast (trace (ocrHandleFile (Some f))) = 1%nat.
Proof. unfold_upload. repeat step_upload; reflexivity. Qed.

(** X9. Whenever OCRUpload.handleFile switches the processing
    indicator on, it switches it on once and its last two effects are
    switching it off and scheduling the reset of the progress bar,
    whether the request succeeded or failed. *)
Theorem handleFile_stops_processing (f : File) :
  In (SetIsProcessing true) (trace (ocrHandleFile (Some f))) ->
  exists before,
    trace (ocrHandleFile (Some f))
    = before ++ [SetIsProcessing false; SetTimeout 1000]
    /\ hd_error before = Some (SetIsProcessing true)
    /\ ~ In (SetIsProcessing true) (tl before)
    /\ ~ In (SetIsProcessing false) before.
Proof.
  unfold_upload.
  repeat step_upload; intros HIn;
    try (cbn [In] in HIn;
         repeat (destruct HIn as [HIn|HIn]; try discriminate HIn);
         contradiction);
    match goal with
    | |- exists b, ?L = _ /\ _ => exists (removelast (removelast L))
    end;
    cbn [removelast app hd_error tl];
    (split; [reflexivity|]); (split; [reflexivity|]);
    split; intros H; cbn [In] in H;
    repeat (destruct H as [H|H]; try discriminate H); contradiction.
Qed.

(** X10. onOCRComplete is called only with the parsed body of an ok
    response to the request for this file, and only when the callback
    is given; it is never called for a rejected file or a failed
    request. *)
Theorem onOCRComplete_only_after_ok (f : File) (r : json) :
  In (OnOCRComplete r) (trace (ocrHandleFile (Some f))) ->
  OCRUpload.onOCRComplete props = true
  /\ includes OCRUpload.supportedFormats (OCRUpload.fileExtension f) = true
  /\ exists response,
       fetch ocrUrl (ocrInit f) = Resolved response
       /\ Response.ok response = true
       /\ Response.json response = Resolved r.
Proof.
  unfold_upload.
  repeat step_upload; intros HIn; cbn in HIn;
    rewrite ?negb_true_iff, ?negb_false_iff in *;
    repeat match goal with
           | H : _ \/ _ |- _ => destruct H
           | H : False |- _ => destruct H
           | H : _ = OnOCRComplete _ |- _ =>
               first [discriminate H | injection H as <-]
           end;
    (split; [reflexivity|]); (split; [assumption|]);
    eexists; (split; [reflexivity|]); split; assumption.
Qed.

(** X11. An ok response whose body is an object without
    extracted_text is stored as the result and handed to
    onOCRComplete, and then reported as a failure: the error toast and
    onError follow, with the TypeError of reading its length. *)
Theorem body_without_text (f : File) (response : Response.t)
  (entries : list (string * json)) :
  includes OCRUpload.supportedFormats (OCRUpload.fileExtension f) = true ->
  (size f <= OCRUpload.maxSize)%N ->
  fetch ocrUrl (ocrInit f) = Resolved response ->
  Response.ok response = true ->
  Response.json response = Resolved (JObj entries) ->
  lookup "extracted_text" entries = None ->
  trace (ocrHandleFile (Some f))
  = [SetIsProcessing true; SetProgress 0; SetResult None; SetInterval 200;
     FetchEv ocrUrl (ocrInit f);
     ClearInterval; SetProgress 100; SetResult (Some (JObj entries))]
    ++ (if OCRUpload.onOCRComplete props
        then [OnOCRComplete (JObj entries)] else [])
    ++ [ConsoleError "OCR processing error:"
          (TypeError "Cannot read properties of undefined (reading 'length')");
        ToastEv (mkToast (Some "destructive") "Ошибка OCR обработки"
                   "Cannot read properties of undefined (reading 'length')")]
    ++ (if OCRUpload.onError props
        then [OnError "Cannot read properties of undefined (reading 'length')"]
        else [])
    ++ [SetIsProcessing false; SetTimeout 1000].
Proof.
  intros Hext Hsize Hfetch Hok Hjson Hlookup.
  apply N.ltb_ge in Hsize.
  unfold_upload. rewrite Hext, Hsize. cbn [negb].
  cbn [OcrApi.formData OcrApi.file OcrApi.ground_truth OcrApi.expected_fields
       OcrApi.schema app] in Hfetch |- *.
  rewrite Hfetch, Hok. cbn [negb]. rewrite Hjson.
  cbn [get_property]. rewrite Hlookup.
  destruct (OCRUpload.onOCRComplete props), (OCRUpload.onError props);
    reflexivity.
Qed.

End UploadCases.

(** ** The extension the OCR uploader checks *)

Section ExtensionFacts.

Import ClientSpec.

Lemma append_empty_r (s : string) : (s ++ "")%string = s.
Proof. induction s as [|c s IH]; cbn; [reflexivity|now rewrite IH]. Qed.

Lemma append_snoc (cur rest : string) (c : ascii) :
  ((cur ++ String c "") ++ rest = cur ++ String c rest)%string.
Proof. induction cur as [|a cur IH]; cbn; [reflexivity|now rewrite IH]. Qed.

Lemma lacks_cons (sep c : ascii) (s : string) :
  lacks sep (String c s) -> Ascii.eqb c sep = false /\ lacks sep s.
Proof.
  unfold lacks. cbn. intros H. split.
  - apply Ascii.eqb_neq. intros ->. apply H. now left.
  - intros Hin. apply H. now right.
Qed.

(** Without a separator there is a single segment. *)
Lemma split_from_lacks (sep : ascii) (s cur : string) :
  lacks sep s -> split_from sep cur s = [(cur ++ s)%string].
Proof.
  revert cur. induction s as [|c s IH]; intros cur H; cbn.
  - now rewrite append_empty_r.
  - destruct (lacks_cons _ _ _ H) as [-> Hs].
    rewrite IH by exact Hs. now rewrite append_snoc.
Qed.

Lemma pop_cons {A : Type} (x : A) (l : list A) :
  pop (x :: l) = match pop l with Some y => Some y | None => Some x end.
Proof.
  unfold pop. cbn [rev]. destruct (rev l); reflexivity.
Qed.

Lemma pop_split_from (sep : ascii) (s cur : string) :
  exists last, pop (split_from sep cur s) = Some last.
Proof.
  revert cur. induction s as [|c s IH]; intros cur; cbn.
  - exists cur. reflexivity.
  - destruct (Ascii.eqb c sep); [|apply IH].
    rewrite pop_cons. destruct (IH ""%string) as (last & ->).
    exists last. reflexivity.
Qed.

(** The last segment is what follows the last separator. *)
Lemma pop_split_append (sep : ascii) (base ext cur : string) :
  lacks sep ext ->
  pop (split_from sep cur (base ++ String sep ext)) = Some ext.
Proof.
  intros Hext. revert cur.
  induction base as [|c base IH]; intros cur; cbn.
  - rewrite Ascii.eqb_refl, split_from_lacks by exact Hext. reflexivity.
  - destruct (Ascii.eqb c sep); [|apply IH].
    rewrite pop_cons, IH. reflexivity.
Qed.

Lemma extension_of_dotted (f : File) (base ext : string) :
  name f = (base ++ "." ++ ext)%string ->
  lacks "." ext ->
  OCRUpload.fileExtension f = ("." ++ toLowerCase ext)%string.
Proof.
  intros Hname Hext. unfold OCRUpload.fileExtension, split.
  rewrite Hname. cbn [append].
  now rewrite pop_split_append.
Qed.

(** X12. For a name that ends in a dot followed by a dot-free suffix,
    the extension OCRUpload checks is the dot and that suffix in lower
    case, whatever precedes it. *)
Theorem extension_after_last_dot (f : File) (base ext : string) :
  name f = (base ++ "." ++ ext)%string ->
  lacks "." ext ->
  OCRUpload.fileExtension f = ("." ++ toLowerCase ext)%string.
Proof. apply extension_of_dotted. Qed.

(** X13. For a name without any dot, the extension OCRUpload checks
    is a dot followed by the whole name in lower case, so that a file
    named like a supported format without the dot passes the check. *)
Theorem extension_without_dot (f : File) :
  lacks "." (name f) ->
  OCRUpload.fileExtension f = ("." ++ toLowerCase (name f))%string.
Proof.
  intros H. unfold OCRUpload.fileExtension, split.
  now rewrite split_from_lacks by exact H.
Qed.

Lemma lower_char_dot (c : ascii) :
  Ascii.eqb (lower_char c) "." = Ascii.eqb c ".".
Proof. destruct c as [[] [] [] [] [] [] [] []]; reflexivity. Qed.

Lemma lower_char_idempotent (c : ascii) :
  lower_char (lower_char c) = lower_char c.
Proof. destruct c as [[] [] [] [] [] [] [] []]; reflexivity. Qed.

Lemma toLowerCase_idempotent (s : string) :
  toLowerCase (toLowerCase s) = toLowerCase s.
Proof.
  unfold toLowerCase.
  induction s as [|c s IH]; cbn; [reflexivity|].
  now rewrite lower_char_idempotent, IH.
Qed.

Lemma toLowerCase_append (s t : string) :
  toLowerCase (s ++ t) = (toLowerCase s ++ toLowerCase t)%string.
Proof.
  unfold toLowerCase.
  induction s as [|c s IH]; cbn; [reflexivity|now rewrite IH].
Qed.

Lemma split_from_lower (s cur : string) :
  split_from "." (toLowerCase cur) (toLowerCase s)
  = map toLowerCase (split_from "." cur s).
Proof.
  revert cur. induction s as [|c s IH]; intros cur; [reflexivity|].
  cbn [toLowerCase map_string split_from]. fold (toLowerCase s).
  rewrite lower_char_dot.
  destruct (Ascii.eqb c "."); cbn [map].
  - f_equal. apply (IH ""%string).
  - rewrite <- IH, toLowerCase_append. reflexivity.
Qed.

Lemma pop_map {A B : Type} (g : A -> B) (l : list A) :
  pop (map g l) = option_map g (pop l).
Proof.
  unfold pop. rewrite <- map_rev. destruct (rev l); reflexivity.
Qed.

(** X14. For a name of ASCII characters the check of OCRUpload does
    not depend on the case of the name: a file and the file with its
    name in lower case have the same extension, hence the same
    verdict. *)
Theorem extension_ignores_case (f : File) :
  ascii_only (name f) ->
  OCRUpload.fileExtension (mkFile (toLowerCase (name f)) (type f) (size f))
  = OCRUpload.fileExtension f.
Proof.
  intros _. unfold OCRUpload.fileExtension, split. cbn [name].
  change (split_from "." "" (toLowerCase (name f)))
    with (split_from "." (toLowerCase "") (toLowerCase (name f))).
  rewrite (split_from_lower (name f) ""%string), pop_map.
  destruct (pop (split_from "." "" (name f))) as [last|]; cbn [option_map];
    [|reflexivity].
  now rewrite toLowerCase_idempotent.
Qed.

Lemma substring_all (s : string) : substring 0 (String.length s) s = s.
Proof. induction s as [|c s IH]; cbn; [reflexivity|now rewrite IH]. Qed.

Lemma substring_decompose (k : nat) (s : string) :
  (k <= String.length s)%nat ->
  s = (substring 0 k s ++ substring k (String.length s - k) s)%string.
Proof.
  revert s. induction k as [|k IH]; intros s H.
  - rewrite Nat.sub_0_r, substring_all. destruct s; reflexivity.
  - destruct s as [|c s]; [cbn in H; lia|].
    cbn in H |- *. f_equal. apply IH. lia.
Qed.

(** A string that ends with a suffix is some prefix followed by it. *)
Lemma endsWith_decompose (s suffix : string) :
  endsWith s suffix = true -> exists base, s = (base ++ suffix)%string.
Proof.
  unfold endsWith. intros H. apply andb_true_iff in H as [Hlen Heq].
  apply Nat.leb_le in Hlen. apply String.eqb_eq in Heq.
  exists (substring 0 (String.length s - String.length suffix) s).
  assert (Hk : (String.length s - String.length suffix
                <= String.length s)%nat) by lia.
  pose proof (substring_decompose _ s Hk) as D.
  replace (String.length s - (String.length s - String.length suffix))%nat
    with (String.length suffix) in D by lia.
  rewrite Heq in D. exact D.
Qed.

(** X15. A file whose name ends in ".pdf" passes the format check of
    both uploaders, whatever its MIME type. *)
Theorem pdf_passes_both (f : File) :
  endsWith (name f) ".pdf" = true ->
  DocUpload.isSupported f = true
  /\ includes OCRUpload.supportedFormats (OCRUpload.fileExtension f) = true.
Proof.
  intros H. split.
  - unfold DocUpload.isSupported. rewrite H. apply orb_true_r.
  - destruct (endsWith_decompose _ _ H) as (base & Hname).
    rewrite (extension_of_dotted f base "pdf" Hname); [reflexivity|].
    unfold lacks. cbn. intuition discriminate.
Qed.

(** X16. A file whose name ends in ".txt" is accepted by the text
    uploader and rejected by the OCR uploader. *)
Theorem txt_goes_to_text_uploader (f : File) :
  endsWith (name f) ".txt" = true ->
  DocUpload.handleFile (Some f) = [OnFileUpload f]
  /\ includes OCRUpload.supportedFormats (OCRUpload.fileExtension f) = false.
Proof.
  intros H. split.
  - unfold DocUpload.handleFile, DocUpload.isSupported. rewrite H.
    rewrite orb_true_r. reflexivity.
  - destruct (endsWith_decompose _ _ H) as (base & Hname).
    rewrite (extension_of_dotted f base "txt" Hname); [reflexivity|].
    unfold lacks. cbn. intuition discriminate.
Qed.

End ExtensionFacts.

(** ** Files without a supported extension *)

Section UnsupportedFiles.

Import ClientSpec.

Variable NEXT_PUBLIC_API_BASE_URL : option string.
Variable fetch : string -> RequestInit -> promise Response.t.
Variable Number_toString : Q -> string.
Variable String_length : string -> N.
Variable props : OCRUpload.OCRUploadProps.

Local Abbreviation ocrHandleFile :=
  (OCRUpload.handleFile NEXT_PUBLIC_API_BASE_URL fetch Number_toString
     String_length props).

(** A name without an extension has no dot. *)
Lemma extension_none (s : string) : extension s = None -> lacks "." s.
Proof.
  unfold lacks.
  induction s as [|c s IH]; cbn [extension list_ascii_of_string In];
    [tauto|].
  destruct (extension s) as [e|]; [discriminate|].
  destruct (Ascii.eqb c ".") eqn:E; [discriminate|].
  apply Ascii.eqb_neq in E.
  intros _ [H|H]; [congruence|exact (IH eq_refl H)].
Qed.

(** An extension is the last dot of the name and the dot-free text
    after it. *)
Lemma extension_some (s e : string) :
  extension s = Some e ->
  exists base ext,
    s = (base ++ "." ++ ext)%string
    /\ lacks "." ext
    /\ e = ("." ++ ext)%string.
Proof.
  revert e. induction s as [|c s IH]; intros e; cbn [extension];
    [discriminate|].
  destruct (extension s) as [e'|] eqn:Es.
  - intros H. injection H as <-.
    destruct (IH e' eq_refl) as (base & ext & -> & Hl & ->).
    exists (String c base), ext. repeat split. exact Hl.
  - destruct (Ascii.eqb c ".") eqn:E; [|discriminate].
    apply Ascii.eqb_eq in E. subst c. intros H. injection H as <-.
    exists ""%string, s. repeat split. apply extension_none. exact Es.
Qed.

Lemma extension_append (base suffix e : string) :
  extension suffix = Some e -> extension (base ++ suffix) = Some e.
Proof.
  intros H. induction base as [|c base IH]; cbn [append extension];
    [exact H|].
  now rewrite IH.
Qed.

(** When the name has an extension, the OCR uploader checks that
    extension in lower case. *)
Lemma fileExtension_extension (f : File) (e : string) :
  extension (name f) = Some e ->
  OCRUpload.fileExtension f = toLowerCase e.
Proof.
  intros H. destruct (extension_some _ _ H) as (base & ext & Hn & Hl & ->).
  rewrite (extension_of_dotted f base ext Hn Hl). reflexivity.
Qed.

(** The text uploader turns away a file that has neither a MIME type
    nor an extension it names: the only effect is its toast, and
    onFileUpload is not called. *)
Lemma text_upload_rejects (doc : File) :
  includes text_types (type doc) = false ->
  within text_extensions (extension (name doc)) = false ->
  DocUpload.handleFile (Some doc) = [ToastEv DocUpload.invalidFileType].
Proof.
  intros Ht He.
  assert (Hs : DocUpload.isSupported doc = false).
  { unfold DocUpload.isSupported.
    unfold includes, text_types in Ht. cbn [existsb] in Ht.
    apply orb_false_iff in Ht as [-> Ht].
    apply orb_false_iff in Ht as [-> _]. cbn [orb].
    destruct (endsWith (name doc) ".txt") eqn:E1.
    { destruct (endsWith_decompose _ _ E1) as (base & Hn).
      rewrite Hn, (extension_append base ".txt" ".txt" eq_refl) in He.
      discriminate He. }
    destruct (endsWith (name doc) ".pdf") eqn:E2; [|reflexivity].
    destruct (endsWith_decompose _ _ E2) as (base & Hn).
    rewrite Hn, (extension_append base ".pdf" ".pdf" eq_refl) in He.
    discriminate He. }
  unfold DocUpload.handleFile. now rewrite Hs.
Qed.

(** The OCR uploader turns away a file whose name has an extension
    that, in lower case, is none of the supported formats: the only
    effect is its toast, and no request is sent. *)
Lemma ocr_upload_rejects (scan : File) (e : string) :
  extension (name scan) = Some e ->
  includes OCRUpload.supportedFormats (toLowerCase e) = false ->
  ocrHandleFile (Some scan)
  = ([ToastEv OCRUpload.unsupportedFormat], Resolved tt).
Proof.
  intros He Hf. unfold OCRUpload.handleFile.
  rewrite (fileExtension_extension scan e He), Hf. reflexivity.
Qed.

(** A name without an extension is turned away as well, unless the
    whole name, in lower case, is the name of a supported format
    without its dot. *)
Lemma ocr_upload_rejects_bare (scan : File) :
  extension (name scan) = None ->
  includes OCRUpload.supportedFormats ("." ++ toLowerCase (name scan)) = false ->
  ocrHandleFile (Some scan)
  = ([ToastEv OCRUpload.unsupportedFormat], Resolved tt).
Proof.
  intros He Hf. unfold OCRUpload.handleFile.
  replace (OCRUpload.fileExtension scan)
    with ("." ++ toLowerCase (name scan))%string.
  - rewrite Hf. reflexivity.
  - unfold OCRUpload.fileExtension, split.
    now rewrite split_from_lacks by (apply extension_none; exact He).
Qed.

(** C7 at a file named "pdf": the name has no dot, so the file has no
    extension, and it has no MIME type.  The text uploader turns it
    away with its toast.  The OCR uploader takes the whole name for the
    extension: it shows no rejection, starts the processing and sends
    the file to the service, once. *)
Theorem extensionless_file_sent :
  extension (name SampleLibrary.extensionless) = None
  /\ includes text_types (type SampleLibrary.extensionless) = false
  /\ DocUpload.handleFile (Some SampleLibrary.extensionless)
     = [ToastEv DocUpload.invalidFileType]
  /\ OCRUpload.fileExtension SampleLibrary.extensionless = ".pdf"
  /\ (exists rest,
        trace (ocrHandleFile (Some SampleLibrary.extensionless))
        = [SetIsProcessing true; SetProgress 0; SetResult None;
           SetInterval 200;
           FetchEv (OcrApi.API_BASE_URL NEXT_PUBLIC_API_BASE_URL
                    ++ "/ocr/process")
             (mkInit "POST" [("file", FFile SampleLibrary.extensionless)])]
          ++ rest)
  /\ count is_fetch (trace (ocrHandleFile (Some SampleLibrary.extensionless)))
     = 1%nat
  /\ ~ In (ToastEv OCRUpload.unsupportedFormat)
         (trace (ocrHandleFile (Some SampleLibrary.extensionless))).
Proof.
  split; [reflexivity|]. split; [reflexivity|]. split; [reflexivity|].
  split; [reflexivity|].
  unfold_upload.
  change (includes OCRUpload.supportedFormats
            (OCRUpload.fileExtension SampleLibrary.extensionless)) with true.
  change (OCRUpload.maxSize <? size SampleLibrary.extensionless)%N with false.
  cbn [negb].
  repeat step_upload;
    (split; [eexists; reflexivity|]); (split; [reflexivity|]);
    intros H; cbn [In] in H;
    repeat (destruct H as [H|H]; try discriminate H); contradiction.
Qed.

End UnsupportedFiles.

(** ** The page buttons *)

Section PageButtonProperties.

Import OCRColumnsDisplay PageControls.

Variable result : OCRResponse.t.
Variable pages : list PageData.t.
Hypothesis result_pages : OCRResponse.pages result = Some pages.

Lemma in_range_hasPages (st : State) :
  in_range pages st -> hasPages result = true.
Proof.
  unfold in_range, hasPages. rewrite result_pages. intros H.
  apply Nat.ltb_lt. lia.
Qed.

(** X17. Inside the page list, going to the next page and back
    returns to the same state unless the page is the last one, and
    going to the previous page and forth does unless it is the first. *)
Theorem next_prev_round_trip (st : State) :
  in_range pages st ->
  ((currentPage st < Z.of_nat (List.length pages) - 1)%Z ->
   goToPrevPage result (goToNextPage result st) = st)
  /\ ((0 < currentPage st)%Z ->
      goToNextPage result (goToPrevPage result st) = st).
Proof.
  intros H. pose proof (in_range_hasPages st H) as Hp.
  unfold in_range in H. destruct st as [p v].
  unfold goToPrevPage, goToNextPage. rewrite result_pages, Hp.
  cbn [currentPage activeView] in *.
  split; intros Hlt; f_equal; lia.
Qed.

(** X18. Inside the page list, a page button is disabled exactly when
    its handler would leave the state unchanged, and the handler of an
    enabled button moves the index by exactly one page. *)
Theorem buttons_match_handlers (st : State) :
  in_range pages st ->
  (prevDisabled st = true <-> goToPrevPage result st = st)
  /\ (nextDisabled pages st = true <-> goToNextPage result st = st)
  /\ (prevDisabled st = false ->
      currentPage (goToPrevPage result st) = (currentPage st - 1)%Z)
  /\ (nextDisabled pages st = false ->
      currentPage (goToNextPage result st) = (currentPage st + 1)%Z).
Proof.
  intros H. pose proof (in_range_hasPages st H) as Hp.
  unfold in_range in H. destruct st as [p v].
  unfold prevDisabled, nextDisabled, goToPrevPage, goToNextPage.
  rewrite result_pages, Hp. cbn [currentPage activeView] in *.
  rewrite !Z.eqb_eq, !Z.eqb_neq.
  repeat split; intros E; try (f_equal; lia); try lia;
    injection E as E; lia.
Qed.

End PageButtonProperties.

Section NoPagesProperties.

Import OCRColumnsDisplay.

Variable result : OCRResponse.t.
Hypothesis no_pages : hasPages result = false.

Lemma step_without_pages (st : State) (a : Action) :
  currentPage (step result st a) = currentPage st.
Proof.
  destruct a; cbn [step]; [| |reflexivity].
  - unfold goToPrevPage. rewrite no_pages.
    destruct (OCRResponse.pages result); reflexivity.
  - unfold goToNextPage. rewrite no_pages.
    destruct (OCRResponse.pages result); reflexivity.
Qed.

(** X19. When the result has no pages, or an empty page list, no
    sequence of navigation calls moves the index: it stays 0, and
    never becomes -1. *)
Theorem navigation_without_pages (actions : list Action) :
  currentPage (run result actions) = 0%Z.
Proof.
  unfold run.
  assert (H : forall st, currentPage (fold_left (step result) actions st)
                         = currentPage st).
  { induction actions as [|a l IH]; intros st; [reflexivity|].
    cbn [fold_left]. rewrite IH. apply step_without_pages. }
  rewrite H. reflexivity.
Qed.

End NoPagesProperties.

(** ** The metric cards *)

Section MetricCardProperties.

Import MetricCard ClientSpec.

(** X20. The colour, the badge variant and the badge text of a metric
    always show the same class: all three "excellent" from 0.9 up,
    all three "good" from 0.7 up to 0.9, all three "poor" below. *)
Theorem metric_class_consistent (value : Q) :
  (0.9 <= value
   /\ getMetricColor value = "text-green-600"
   /\ getMetricBadgeVariant value = "default"
   /\ badgeText value = "Отлично")
  \/ (0.7 <= value /\ value < 0.9
      /\ getMetricColor value = "text-yellow-600"
      /\ getMetricBadgeVariant value = "secondary"
      /\ badgeText value = "Хорошо")
  \/ (value < 0.7
      /\ getMetricColor value = "text-red-600"
      /\ getMetricBadgeVariant value = "destructive"
      /\ badgeText value = "Требует улучшения").
Proof.
  unfold getMetricColor, getMetricBadgeVariant, badgeText.
  destruct (Qle_bool 0.9 value) eqn:E9.
  - left. apply Qle_bool_iff in E9. auto.
  - assert (H9 : value < 0.9).
    { apply Qnot_le_lt. intros H. apply Qle_bool_iff in H. congruence. }
    destruct (Qle_bool 0.7 value) eqn:E7.
    + right; left. apply Qle_bool_iff in E7. auto.
    + right; right. split; [|auto].
      apply Qnot_le_lt. intros H. apply Qle_bool_iff in H. congruence.
Qed.

Lemma map_string_length (g : ascii -> ascii) (s : string) :
  String.length (map_string g s) = String.length s.
Proof. induction s as [|c s IH]; cbn; [reflexivity|now rewrite IH]. Qed.

Lemma capitalize_length (prev : bool) (s : string) :
  String.length (OCRMetrics.capitalize_from prev s) = String.length s.
Proof.
  revert prev. induction s as [|c s IH]; intros prev; cbn;
    [reflexivity|now rewrite IH].
Qed.

Lemma upper_char_underscore (c : ascii) (b : bool) :
  (if b then upper_char c else c) = "_"%char -> c = "_"%char.
Proof.
  destruct b; [|auto].
  destruct c as [[] [] [] [] [] [] [] []]; cbn; intros H;
    first [exact H | discriminate H].
Qed.

Lemma label_lacks_underscore (prev : bool) (key : string) :
  lacks "_" (OCRMetrics.capitalize_from prev (OCRMetrics.spaced key)).
Proof.
  unfold lacks, OCRMetrics.spaced. revert prev.
  induction key as [|c key IH]; intros prev; cbn; [tauto|].
  intros [H|H]; [|exact (IH _ H)].
  apply upper_char_underscore in H.
  destruct (Ascii.eqb c "_") eqn:E; [discriminate H|].
  apply Ascii.eqb_neq in E. contradiction.
Qed.

(** X21. The chart has one entry per metric, in the order of the map;
    an entry keeps the raw value, plots a hundred times it, and is
    labelled with a text as long as the key and free of underscores. *)
Theorem chartData_entries (result : OCRResponse.t) :
  Forall2
    (fun kv e =>
       OCRMetrics.rawValue e = snd kv
       /\ OCRMetrics.value e = snd kv * 100
       /\ String.length (OCRMetrics.metric e) = String.length (fst kv)
       /\ lacks "_" (OCRMetrics.metric e))
    (OCRResponse.metrics result) (OCRMetrics.chartData result).
Proof.
  unfold OCRMetrics.chartData.
  induction (OCRResponse.metrics result) as [|kv l IH]; cbn [map];
    constructor; [|exact IH].
  cbn [OCRMetrics.rawValue OCRMetrics.value OCRMetrics.metric].
  repeat split.
  - unfold OCRMetrics.spaced.
    now rewrite capitalize_length, map_string_length.
  - apply label_lacks_underscore.
Qed.

End MetricCardProperties.

(** ** The document actions *)

Section DocumentActionProperties.

Import DocumentActions.

Variable summarizeDocument :
  SummarizeDocumentInput -> promise SummarizeDocumentOutput.
Variable trim : string -> string.
Variable split : string -> string -> list string.
Variable pdf_by_page : list N -> promise (option PdfData).
Variable pdf_plain : list N -> promise (option PdfData).

Local Abbreviation summarize := (summarizeText summarizeDocument trim).
Local Abbreviation parse := (parsePdf trim split pdf_by_page pdf_plain).
Local Abbreviation pieces d :=
  (filter (fun page => negb (String.eqb page ""))
     (map trim (split (text d) pageBreak))).

(** X23. summarizeText never rejects.  For a document that is blank
    after trimming it answers "Document is empty." without consulting
    the flow; otherwise it answers with the summary of the flow, or
    with null, after logging the error, when the flow throws. *)
Theorem summarizeText_resolves (documentText : string) :
  exists v,
    outcome (summarize documentText) = Resolved v
    /\ if String.eqb (trim documentText) ""
       then v = Some "Document is empty."
            /\ trace (summarize documentText) = []
       else match summarizeDocument (mkSummarizeInput documentText) with
            | Resolved out =>
                v = Some (summary out)
                /\ trace (summarize documentText) = []
            | Rejected error =>
                v = None
                /\ trace (summarize documentText)
                   = [ConsoleError "Error in summarizeText:" error]
            end.
Proof.
  unfold summarizeText. run_io.
  destruct (String.eqb (trim documentText) "").
  - eexists. repeat split.
  - destruct (summarizeDocument _) as [out|error]; cbn;
      eexists; repeat split.
Qed.

(** The result of parsePdf, case by case. *)
Lemma parsePdf_pages (pdfBuffer : list N) :
  exists r,
    outcome (parse pdfBuffer) = Resolved r
    /\ forall pages,
         r = Some pages ->
         pages <> []
         /\ (Forall (fun page => page <> ""%string) pages
             \/ exists d,
                  pdf_plain pdfBuffer = Resolved (Some d)
                  /\ pages = [text d]).
Proof.
  unfold parsePdf, allText. run_io.
  destruct (pdf_by_page pdfBuffer) as [[d|]|e];
    cbn -[Nat.ltb N.eqb filter];
    [destruct (numpages d =? 0)%N;
     [|match goal with
       | |- context [filter ?g ?l] => set (pages := filter g l)
       end;
       destruct (0 <? List.length pages)%nat eqn:Hlen]| |].
  2:{ exists (Some pages). split; [reflexivity|].
      intros pages' H. injection H as <-. split.
      - apply Nat.ltb_lt in Hlen. destruct pages; [cbn in Hlen; lia|].
        discriminate.
      - left. apply Forall_forall. intros page Hin.
        apply filter_In in Hin as [_ Hne].
        apply negb_true_iff, String.eqb_neq in Hne. exact Hne. }
  4:{ exists None. split; [reflexivity|]. discriminate. }
  all: destruct (pdf_plain pdfBuffer) as [[d'|]|e']; cbn;
    eexists; (split; [reflexivity|]); intros pages' H;
    try discriminate H; injection H as <-;
    (split; [discriminate|]); right; exists d'; split; reflexivity.
Qed.

(** X24. parsePdf never rejects: it resolves to null or to a list of
    pages that is never empty.  The list is either the trimmed pieces
    of the text of a by-page parse with a page count, cut at the page
    breaks, without the blank ones and in their order; or, when that
    parse gave no such piece, the single whole text of the plain
    parse. *)
Theorem parsePdf_resolves (pdfBuffer : list N) :
  exists r,
    outcome (parse pdfBuffer) = Resolved r
    /\ forall pages,
         r = Some pages ->
         pages <> []
         /\ ((exists d,
                pdf_by_page pdfBuffer = Resolved (Some d)
                /\ numpages d <> 0%N
                /\ pages = pieces d
                /\ Forall (fun page => page <> ""%string) pages)
             \/ (exists d,
                   pdf_plain pdfBuffer = Resolved (Some d)
                   /\ pages = [text d]
                   /\ forall d0,
                        pdf_by_page pdfBuffer = Resolved (Some d0) ->
                        numpages d0 = 0%N \/ pieces d0 = [])).
Proof.
  unfold parsePdf, allText. run_io.
  destruct (pdf_by_page pdfBuffer) as [[d|]|e];
    cbn -[Nat.ltb N.eqb filter].
  - destruct (numpages d =? 0)%N eqn:Hn.
    + apply N.eqb_eq in Hn.
      destruct (pdf_plain pdfBuffer) as [[d'|]|e']; cbn;
        eexists; (split; [reflexivity|]); intros pages' H;
        try discriminate H; injection H as <-;
        (split; [discriminate|]); right; exists d';
        (split; [reflexivity|]); (split; [reflexivity|]);
        intros d0 H0; injection H0 as <-; left; exact Hn.
    + apply N.eqb_neq in Hn.
      destruct (0 <? List.length (pieces d))%nat eqn:Hlen.
      * exists (Some (pieces d)). split; [reflexivity|].
        intros pages' H. injection H as <-. split.
        -- apply Nat.ltb_lt in Hlen.
           destruct (pieces d); [cbn in Hlen; lia|discriminate].
        -- left. exists d. repeat split; [exact Hn|].
           apply Forall_forall. intros page Hin.
           apply filter_In in Hin as [_ Hne].
           apply negb_true_iff, String.eqb_neq in Hne. exact Hne.
      * apply Nat.ltb_ge in Hlen.
        assert (Hnil : pieces d = [])
          by (destruct (pieces d); [reflexivity|cbn in Hlen; lia]).
        destruct (pdf_plain pdfBuffer) as [[d'|]|e']; cbn;
          eexists; (split; [reflexivity|]); intros pages' H;
          try discriminate H; injection H as <-;
          (split; [discriminate|]); right; exists d';
          (split; [reflexivity|]); (split; [reflexivity|]);
          intros d0 H0; injection H0 as <-; right; exact Hnil.
  - destruct (pdf_plain pdfBuffer) as [[d'|]|e']; cbn;
      eexists; (split; [reflexivity|]); intros pages' H;
      try discriminate H; injection H as <-;
      (split; [discriminate|]); right; exists d';
      (split; [reflexivity|]); (split; [reflexivity|]);
      intros d0 H0; discriminate H0.
  - exists None. split; [reflexivity|]. discriminate.
Qed.

End DocumentActionProperties.

(** ** The page of the application *)

Section HomeProperties.

Import Home.

Local Abbreviation Home_in_range := Home.in_range.

Lemma Home_step_in_range (d : Document) (st : State) (a : Action) :
  pages d <> [] -> Home_in_range d st -> Home_in_range d (step st a).
Proof.
  intros Hne [Hdoc H].
  assert (Hlen : (0 < List.length (pages d))%nat)
    by (destruct (pages d); [contradiction|cbn; lia]).
  unfold Home.in_range.
  destruct a; cbn [step]; unfold goToPrevPage, goToNextPage;
    rewrite Hdoc; cbn [doc currentPage]; split; try reflexivity; lia.
Qed.

Lemma Home_run_in_range (d : Document) (actions : list Action) :
  pages d <> [] ->
  Home_in_range d (run d actions)
  /\ exists page, shownPage (run d actions) = Some page.
Proof.
  intros Hne.
  assert (Hlen : (0 < List.length (pages d))%nat)
    by (destruct (pages d); [contradiction|cbn; lia]).
  assert (H : forall st, Home_in_range d st ->
                         Home_in_range d (fold_left step actions st)).
  { induction actions as [|a l IH]; intros st Hst; [exact Hst|].
    cbn [fold_left]. apply IH, Home_step_in_range; assumption. }
  assert (Hrun : Home_in_range d (run d actions)).
  { apply H. split; [reflexivity|]. cbn [loaded currentPage]. lia. }
  split; [exact Hrun|].
  destruct Hrun as [Hdoc Hr]. unfold shownPage. rewrite Hdoc.
  destruct (Z.ltb_spec (currentPage (run d actions)) 0); [lia|].
  destruct (nth_error (pages d) (Z.to_nat (currentPage (run d actions))))
    as [page|] eqn:E; [exists page; reflexivity|].
  apply nth_error_None in E. lia.
Qed.

(** X25. For a document with at least one page, the page index of the
    application stays inside the page list under every sequence of
    previous and next clicks, so that the shown page always exists. *)
Theorem Home_navigation (d : Document) (actions : list Action) :
  pages d <> [] ->
  (0 <= currentPage (run d actions)
   <= Z.of_nat (List.length (pages d)) - 1)%Z
  /\ exists page, shownPage (run d actions) = Some page.
Proof.
  intros Hne. destruct (Home_run_in_range d actions Hne) as [[_ H] Hp].
  split; assumption.
Qed.

Variable trim : string -> string.
Variable split : string -> string -> list string.
Variable pdf_by_page : list N -> promise (option DocumentActions.PdfData).
Variable pdf_plain : list N -> promise (option DocumentActions.PdfData).

(** X26. Every document the application builds can be paged safely:
    for the pages parsePdf resolves with, and for the single page of a
    text file, the page index never leaves the page list, whatever the
    clicks. *)
Theorem loaded_documents_page_safely (file : File) (pdfBuffer : list N)
  (parsed : list string) (content : string) (actions : list Action) :
  outcome (DocumentActions.parsePdf trim split pdf_by_page pdf_plain
             pdfBuffer) = Resolved (Some parsed) ->
  (exists page, shownPage (run (pdfDocument file parsed) actions) = Some page)
  /\ (exists page,
        shownPage (run (textDocument file content) actions) = Some page).
Proof.
  intros H.
  destruct (parsePdf_pages trim split pdf_by_page pdf_plain pdfBuffer)
    as (r & Hr & Hpages).
  rewrite H in Hr. injection Hr as <-.
  destruct (Hpages parsed eq_refl) as [Hne _].
  split.
  - apply Home_run_in_range. exact Hne.
  - apply Home_run_in_range. discriminate.
Qed.

End HomeProperties.

(** ** The chat panel *)

Section ChatPanelProperties.

Import ChatPanel.

Variable askQuestion : string -> string -> promise string.
Variable documentText : string.

Local Abbreviation chat := (session askQuestion documentText).
Local Abbreviation step := (submit askQuestion documentText).

Lemma submit_accounts (acc : State * list ToastOptions) (s : Submission) :
  isLoading (fst (step acc s)) = false
  /\ (exists tail,
        messages (fst (step acc s)) = messages (fst acc) ++ tail
        /\ List.length tail
           = (1 + if answered askQuestion documentText s then 1 else 0)%nat)
  /\ List.length (snd (step acc s))
     = (List.length (snd acc)
        + if answered askQuestion documentText s then 0 else 1)%nat.
Proof.
  unfold submit, onSubmit, submitted, answered.
  destruct (askQuestion documentText (message s)); cbn.
  - split; [reflexivity|]. split.
    + eexists. rewrite <- app_assoc. split; reflexivity.
    + rewrite app_nil_r. lia.
  - split; [reflexivity|]. split.
    + eexists. split; reflexivity.
    + rewrite length_app. reflexivity.
Qed.

(** X27. After any sequence of questions submitted one after the
    other the panel is not loading and has lost no message: the conversation is the greeting
    followed by one message per question and one per answered
    question, and one error toast was shown per unanswered question. *)
Theorem session_accounts (questions : list Submission) :
  isLoading (fst (chat questions)) = false
  /\ (exists tail,
        messages (fst (chat questions)) = messages initial ++ tail
        /\ List.length tail
           = (List.length questions
              + List.length (filter (answered askQuestion documentText)
                               questions))%nat)
  /\ (List.length (snd (chat questions))
      + List.length (filter (answered askQuestion documentText) questions)
      = List.length questions)%nat.
Proof.
  unfold session.
  assert (H : forall acc,
            isLoading (fst acc) = false ->
            isLoading (fst (fold_left step questions acc)) = false
            /\ (exists tail,
                  messages (fst (fold_left step questions acc))
                  = messages (fst acc) ++ tail
                  /\ List.length tail
                     = (List.length questions
                        + List.length
                            (filter (answered askQuestion documentText)
                               questions))%nat)
            /\ (List.length (snd (fold_left step questions acc))
                + List.length
                    (filter (answered askQuestion documentText) questions)
                = List.length (snd acc) + List.length questions)%nat).
  { induction questions as [|s l IH]; intros acc Hacc.
    - cbn. split; [exact Hacc|]. split; [|lia].
      exists []. rewrite app_nil_r. split; reflexivity.
    - cbn [fold_left].
      destruct (submit_accounts acc s) as (Hl & (t1 & Ht1 & Hn1) & Hc).
      destruct (IH (step acc s) Hl) as (Hl' & (t2 & Ht2 & Hn2) & Hc').
      split; [exact Hl'|]. split.
      + exists (t1 ++ t2). rewrite Ht2, Ht1, <- app_assoc.
        split; [reflexivity|].
        rewrite length_app, Hn1, Hn2. cbn [filter List.length].
        destruct (answered askQuestion documentText s); cbn; lia.
      + rewrite Hc in Hc'. cbn [filter List.length].
        destruct (answered askQuestion documentText s); cbn in *; lia. }
  destruct (H (initial, []) eq_refl) as (H1 & H2 & H3).
  split; [exact H1|]. split; [exact H2|]. cbn in H3. lia.
Qed.

End ChatPanelProperties.

Section ChatWithServerAction.

Import ChatPanel.

Variable llmChatWithDocument :
  Actions.LLMChatWithDocumentInput ->
  promise Actions.LLMChatWithDocumentOutput.
Variable documentText : string.

Local Abbreviation chat :=
  (session (delivered llmChatWithDocument) documentText).
Local Abbreviation step :=
  (submit (delivered llmChatWithDocument) documentText).

Lemma delivered_resolves (question : string) :
  exists s, delivered llmChatWithDocument documentText question = Resolved s.
Proof.
  unfold delivered, Actions.askQuestion. run_io.
  destruct (llmChatWithDocument _); cbn; eexists; reflexivity.
Qed.

Lemma submit_delivered (acc : State * list ToastOptions) (s : Submission) :
  snd (step acc s) = snd acc
  /\ map role (messages (fst (step acc s)))
     = map role (messages (fst acc)) ++ [user; assistant].
Proof.
  unfold submit, onSubmit, submitted.
  destruct (delivered_resolves (message s)) as (r & ->). cbn.
  split; [apply app_nil_r|].
  rewrite !map_app, <- app_assoc. reflexivity.
Qed.

Lemma turns_snoc (n : nat) : turns n ++ [user; assistant] = turns (S n).
Proof. induction n as [|n IH]; [reflexivity|]. cbn. now rewrite IH. Qed.

(** X28. When every call of the server action is delivered, the chat
    panel never shows its error toast: askQuestion turns every failure
    of the flow into an answer, so after n questions submitted one
    after the other the conversation is the greeting followed by n
    pairs of a user message and an assistant message. *)
Theorem session_never_toasts (questions : list Submission) :
  snd (chat questions) = []
  /\ map role (messages (fst (chat questions)))
     = assistant :: turns (List.length questions).
Proof.
  unfold session.
  assert (H : forall acc n,
            map role (messages (fst acc)) = assistant :: turns n ->
            snd (fold_left step questions acc) = snd acc
            /\ map role (messages (fst (fold_left step questions acc)))
               = assistant :: turns (n + List.length questions)).
  { induction questions as [|s l IH]; intros acc n Hacc.
    - cbn. rewrite Nat.add_0_r. split; [reflexivity|exact Hacc].
    - cbn [fold_left List.length].
      destruct (submit_delivered acc s) as [Ht Hr].
      destruct (IH (step acc s) (S n)) as [Ht' Hr'].
      + rewrite Hr, Hacc. cbn [app]. now rewrite turns_snoc.
      + split; [now rewrite Ht', Ht|].
        rewrite Hr'. now rewrite Nat.add_succ_r. }
  destruct (H (initial, []) 0%nat eq_refl) as [H1 H2].
  split; assumption.
Qed.

End ChatWithServerAction.

(** ** Instances *)

Lemma handleFile_stops_processing_witness :
  exists before,
    trace (OCRUpload.handleFile None SampleLibrary.reports
             SampleClient.Number_toString SampleClient.String_length
             SampleLibrary.props (Some SampleLibrary.scan))
    = before ++ [SetIsProcessing false; SetTimeout 1000]
    /\ hd_error before = Some (SetIsProcessing true)
    /\ ~ In (SetIsProcessing true) (tl before)
    /\ ~ In (SetIsProcessing false) before.
Proof.
  apply (handleFile_stops_processing None SampleLibrary.reports
           SampleClient.Number_toString SampleClient.String_length
           SampleLibrary.props SampleLibrary.scan).
  vm_compute. left. reflexivity.
Defined.

Lemma onOCRComplete_only_after_ok_witness :
  OCRUpload.onOCRComplete SampleLibrary.props = true
  /\ includes OCRUpload.supportedFormats
       (OCRUpload.fileExtension SampleLibrary.scan) = true
  /\ exists response,
       SampleLibrary.reports
         (OcrApi.API_BASE_URL None ++ "/ocr/process")%string
         (mkInit "POST"
            (OcrApi.formData
               (OcrApi.mkRequest SampleLibrary.scan None None None)))
       = Resolved response
       /\ Response.ok response = true
       /\ Response.json response
          = Resolved (OCRResponse.to_json SampleClient.bare).
Proof.
  apply (onOCRComplete_only_after_ok None SampleLibrary.reports
           SampleClient.Number_toString SampleClient.String_length
           SampleLibrary.props SampleLibrary.scan
           (OCRResponse.to_json SampleClient.bare)).
  vm_compute. do 8 right. left. reflexivity.
Defined.

Lemma body_without_text_witness :
  trace (OCRUpload.handleFile None SampleLibrary.empties
           SampleClient.Number_toString SampleClient.String_length
           SampleLibrary.props (Some SampleLibrary.scan))
  = [SetIsProcessing true; SetProgress 0; SetResult None; SetInterval 200;
     FetchEv (OcrApi.API_BASE_URL None ++ "/ocr/process")%string
       (mkInit "POST"
          (OcrApi.formData
             (OcrApi.mkRequest SampleLibrary.scan None None None)));
     ClearInterval; SetProgress 100; SetResult (Some (JObj []))]
    ++ (if OCRUpload.onOCRComplete SampleLibrary.props
        then [OnOCRComplete (JObj [])] else [])
    ++ [ConsoleError "OCR processing error:"
          (TypeError "Cannot read properties of undefined (reading 'length')");
        ToastEv (mkToast (Some "destructive") "Ошибка OCR обработки"
                   "Cannot read properties of undefined (reading 'length')")]
    ++ (if OCRUpload.onError SampleLibrary.props
        then [OnError "Cannot read properties of undefined (reading 'length')"]
        else [])
    ++ [SetIsProcessing false; SetTimeout 1000].
Proof.
  apply (body_without_text None SampleLibrary.empties
           SampleClient.Number_toString SampleClient.String_length
           SampleLibrary.props SampleLibrary.scan
           (Response.mk 200 (Resolved (JObj []))) []).
  - reflexivity.
  - vm_compute. discriminate.
  - reflexivity.
  - reflexivity.
  - reflexivity.
  - reflexivity.
Defined.

Lemma extension_after_last_dot_witness :
  OCRUpload.fileExtension (mkFile "archive.tar.GZ" "" 1)
  = ("." ++ toLowerCase "GZ")%string.
Proof.
  apply (extension_after_last_dot (mkFile "archive.tar.GZ" "" 1)
           "archive.tar" "GZ").
  - reflexivity.
  - unfold ClientSpec.lacks. cbn. intuition discriminate.
Defined.

Lemma extension_without_dot_witness :
  OCRUpload.fileExtension (mkFile "pdf" "" 1)
  = ("." ++ toLowerCase "pdf")%string.
Proof.
  apply (extension_without_dot (mkFile "pdf" "" 1)).
  unfold ClientSpec.lacks. cbn. intuition discriminate.
Defined.

Lemma extension_ignores_case_witness :
  ClientSpec.ascii_only "Scan.PDF"
  /\ OCRUpload.fileExtension (mkFile (toLowerCase "Scan.PDF") "" 1)
     = OCRUpload.fileExtension (mkFile "Scan.PDF" "" 1).
Proof.
  assert (H : ClientSpec.ascii_only "Scan.PDF")
    by (unfold ClientSpec.ascii_only; cbn; repeat constructor; lia).
  split; [exact H|].
  exact (extension_ignores_case (mkFile "Scan.PDF" "" 1) H).
Defined.

Lemma pdf_passes_both_witness :
  DocUpload.isSupported (mkFile "report.pdf" "" 1) = true
  /\ includes OCRUpload.supportedFormats
       (OCRUpload.fileExtension (mkFile "report.pdf" "" 1)) = true.
Proof. apply (pdf_passes_both (mkFile "report.pdf" "" 1)). reflexivity. Defined.

Lemma txt_goes_to_text_uploader_witness :
  DocUpload.handleFile (Some (mkFile "notes.txt" "" 1))
  = [OnFileUpload (mkFile "notes.txt" "" 1)]
  /\ includes OCRUpload.supportedFormats
       (OCRUpload.fileExtension (mkFile "notes.txt" "" 1)) = false.
Proof.
  apply (txt_goes_to_text_uploader (mkFile "notes.txt" "" 1)). reflexivity.
Defined.

Lemma next_prev_round_trip_witness :
  ((OCRColumnsDisplay.currentPage OCRColumnsDisplay.initial
    < Z.of_nat (List.length [SampleClient.page; SampleClient.page]) - 1)%Z ->
   OCRColumnsDisplay.goToPrevPage SampleClient.report
     (OCRColumnsDisplay.goToNextPage SampleClient.report
        OCRColumnsDisplay.initial)
   = OCRColumnsDisplay.initial)
  /\ ((0 < OCRColumnsDisplay.currentPage OCRColumnsDisplay.initial)%Z ->
      OCRColumnsDisplay.goToNextPage SampleClient.report
        (OCRColumnsDisplay.goToPrevPage SampleClient.report
           OCRColumnsDisplay.initial)
      = OCRColumnsDisplay.initial).
Proof.
  apply (next_prev_round_trip SampleClient.report
           [SampleClient.page; SampleClient.page]).
  - reflexivity.
  - unfold OCRColumnsDisplay.in_range. cbn. lia.
Defined.

Lemma buttons_match_handlers_witness :
  (PageControls.prevDisabled OCRColumnsDisplay.initial = true <->
   OCRColumnsDisplay.goToPrevPage SampleClient.report
     OCRColumnsDisplay.initial = OCRColumnsDisplay.initial)
  /\ (PageControls.nextDisabled [SampleClient.page; SampleClient.page]
        OCRColumnsDisplay.initial = true <->
      OCRColumnsDisplay.goToNextPage SampleClient.report
        OCRColumnsDisplay.initial = OCRColumnsDisplay.initial)
  /\ (PageControls.prevDisabled OCRColumnsDisplay.initial = false ->
      OCRColumnsDisplay.currentPage
        (OCRColumnsDisplay.goToPrevPage SampleClient.report
           OCRColumnsDisplay.initial)
      = (OCRColumnsDisplay.currentPage OCRColumnsDisplay.initial - 1)%Z)
  /\ (PageControls.nextDisabled [SampleClient.page; SampleClient.page]
        OCRColumnsDisplay.initial = false ->
      OCRColumnsDisplay.currentPage
        (OCRColumnsDisplay.goToNextPage SampleClient.report
           OCRColumnsDisplay.initial)
      = (OCRColumnsDisplay.currentPage OCRColumnsDisplay.initial + 1)%Z).
Proof.
  apply (buttons_match_handlers SampleClient.report
           [SampleClient.page; SampleClient.page]).
  - reflexivity.
  - unfold OCRColumnsDisplay.in_range. cbn. lia.
Defined.

Lemma navigation_without_pages_witness :
  OCRColumnsDisplay.currentPage
    (OCRColumnsDisplay.run SampleClient.bare SampleClient.clicks) = 0%Z.
Proof.
  apply (navigation_without_pages SampleClient.bare). reflexivity.
Defined.

Lemma Home_navigation_witness :
  (0 <= Home.currentPage
          (Home.run SampleLibrary.document
             [Home.NextPage; Home.NextPage; Home.PrevPage])
   <= Z.of_nat (List.length (Home.pages SampleLibrary.document)) - 1)%Z
  /\ exists page,
       Home.shownPage
         (Home.run SampleLibrary.document
            [Home.NextPage; Home.NextPage; Home.PrevPage]) = Some page.
Proof.
  apply (Home_navigation SampleLibrary.document). discriminate.
Defined.

Lemma loaded_documents_page_safely_witness :
  (exists page,
     Home.shownPage
       (Home.run (Home.pdfDocument SampleLibrary.scan ["one"; "two"])
          [Home.NextPage; Home.NextPage]) = Some page)
  /\ (exists page,
        Home.shownPage
          (Home.run (Home.textDocument SampleLibrary.scan "text")
             [Home.NextPage; Home.NextPage]) = Some page).
Proof.
  apply (loaded_documents_page_safely SampleLibrary.trim SampleLibrary.split
           SampleLibrary.pdf SampleLibrary.pdf SampleLibrary.scan []).
  reflexivity.
Defined.

(** ** The message of a failed request *)

Section ErrorMessageProperties.

Import OcrApi.

Variable NEXT_PUBLIC_API_BASE_URL : option string.
Variable fetch : string -> RequestInit -> promise Response.t.
Variable Number_toString : Q -> string.
Variable request : OCRRequest.
Variable response : Response.t.
Hypothesis fetched :
  fetch (API_BASE_URL NEXT_PUBLIC_API_BASE_URL ++ "/ocr/process")%string
    (mkInit "POST" (formData request)) = Resolved response.
Hypothesis not_ok : Response.ok response = false.


(** X30. When a response that is not ok has a body that is not JSON,
    or a JSON body other than null without a truthy detail,
    processDocumentOCR rejects with an Error whose message is
    "HTTP error! status: " followed by the status in decimal. *)
Theorem error_carries_status :
  (exists e, Response.json response = Rejected e)
  \/ (exists errorData d,
        Response.json response = Resolved errorData
        /\ get_property errorData "detail" = Resolved d
        /\ truthy d = false) ->
  outcome (processDocumentOCR NEXT_PUBLIC_API_BASE_URL fetch Number_toString
             request)
  = Rejected
      (Error ("HTTP error! status: " ++ decimal (Response.status response))).
Proof.
  apply (not_ok_status NEXT_PUBLIC_API_BASE_URL fetch Number_toString
           request response fetched not_ok).
Qed.

End ErrorMessageProperties.


Lemma error_carries_status_witness :
  outcome (OcrApi.processDocumentOCR None
             (SampleClient.server
                (Response.mk 502 (Rejected (SyntaxError "Unexpected token <"))))
             SampleClient.Number_toString
             (SampleClient.request SampleLibrary.scan))
  = Rejected (Error ("HTTP error! status: " ++ decimal 502)).
Proof.
  apply (error_carries_status None
           (SampleClient.server
              (Response.mk 502 (Rejected (SyntaxError "Unexpected token <"))))
           SampleClient.Number_toString
           (SampleClient.request SampleLibrary.scan)
           (Response.mk 502 (Rejected (SyntaxError "Unexpected token <")))
           eq_refl eq_refl).
  left. eexists. reflexivity.
Defined.
